(** * Calendar arithmetic of [util/types/mytime.go]

    A shallow embedding of the MySQL-compatible date and time core:
    day numbers, week numbering, signed time differences and
    unit-parameterised timestamp differences, together with the
    properties the specification states about them.

    Go's [int], [int64] and [uint] are 64 bits wide on the supported
    platforms.  They are modelled as [Z] with the wrap-around of every
    arithmetic operation written out. *)

From Stdlib Require Import ZArith Lia Bool String List.
Import ListNotations.

Local Open Scope Z_scope.

(** ** Machine integers *)

Module Go.

(** [int z] is the value a 64-bit signed integer holds after an
    operation whose mathematical result is [z]. *)
Definition int (z : Z) : Z := (z + 2 ^ 63) mod 2 ^ 64 - 2 ^ 63.

(** Unsigned conversions, one per width used by the source. *)
Definition uint (z : Z) : Z := z mod 2 ^ 64.
Definition uint8 (z : Z) : Z := z mod 2 ^ 8.
Definition uint16 (z : Z) : Z := z mod 2 ^ 16.
Definition uint32 (z : Z) : Z := z mod 2 ^ 32.

(** Signed arithmetic.  Division truncates toward zero, and the
    remainder takes the sign of the dividend. *)
Definition add (a b : Z) : Z := int (a + b).
Definition sub (a b : Z) : Z := int (a - b).
Definition mul (a b : Z) : Z := int (a * b).
Definition div (a b : Z) : Z := int (Z.quot a b).
Definition rem (a b : Z) : Z := Z.rem a b.
Definition neg (a : Z) : Z := int (- a).

(** Unsigned arithmetic on [uint]. *)
Definition uadd (a b : Z) : Z := uint (a + b).
Definition usub (a b : Z) : Z := uint (a - b).
Definition umul (a b : Z) : Z := uint (a * b).

End Go.

Declare Scope go_scope.
Delimit Scope go_scope with go.
Infix "[+]" := Go.add (at level 50, left associativity) : go_scope.
Infix "[-]" := Go.sub (at level 50, left associativity) : go_scope.
Infix "[*]" := Go.mul (at level 40, left associativity) : go_scope.
Infix "[/]" := Go.div (at level 40, left associativity) : go_scope.
Infix "[%]" := Go.rem (at level 40, left associativity) : go_scope.
Infix "{+}" := Go.uadd (at level 50, left associativity) : go_scope.
Infix "{-}" := Go.usub (at level 50, left associativity) : go_scope.
Infix "{*}" := Go.umul (at level 40, left associativity) : go_scope.
Local Open Scope go_scope.

(** ** Day numbers *)

(** [calcDaynr] calculates days since 0000-00-00. *)
Definition calcDaynr (year month day : Z) : Z :=
  if (year =? 0) && (month =? 0) then 0
  else
    let delsum := 365 [*] year [+] 31 [*] (month [-] 1) [+] day in
    let '(year, delsum) :=
      if month <=? 2 then (year [-] 1, delsum)
      else (year, delsum [-] (month [*] 4 [+] 23) [/] 10) in
    let temp := ((year [/] 100 [+] 1) [*] 3) [/] 4 in
    delsum [+] year [/] 4 [-] temp.

(** [calcDaysInYear] calculates days in one year. *)
Definition calcDaysInYear (year : Z) : Z :=
  if (Z.land year 3 =? 0)
     && (negb (year [%] 100 =? 0)
         || ((year [%] 400 =? 0) && negb (year =? 0)))
  then 366 else 365.

(** [calcWeekday] calculates weekday from daynr, returns 0 for Monday,
    1 for Tuesday ... *)
Definition calcWeekday (daynr : Z) (sundayFirstDayOfWeek : bool) : Z :=
  let daynr := daynr [+] 5 in
  let daynr := if sundayFirstDayOfWeek then daynr [+] 1 else daynr in
  daynr [%] 7.

(** ** Time values *)

Record mysqlTime := {
  year : Z;        (* uint16, year <= 9999 *)
  month : Z;       (* uint8, month <= 12 *)
  day : Z;         (* uint8, day <= 31 *)
  hour : Z;        (* uint8, hour <= 23 *)
  minute : Z;      (* uint8, minute <= 59 *)
  second : Z;      (* uint8, second <= 59 *)
  microsecond : Z  (* uint32 *)
}.

(** Modelled from the spec: the interface [TimeInternal], whose
    declaration lies outside this file.  Any type exposing the seven
    accessors can be used where the difference functions take a time
    value; every accessor returns a Go [int]. *)
Class TimeInternal (T : Type) := {
  Year : T -> Z;
  Month : T -> Z;
  Day : T -> Z;
  Hour : T -> Z;
  Minute : T -> Z;
  Second : T -> Z;
  Microsecond : T -> Z
}.

(** The accessors of [mysqlTime] widen the stored field to [int], which
    keeps its value. *)
#[global] Instance mysqlTime_TimeInternal : TimeInternal mysqlTime := {
  Year t := year t;
  Month t := month t;
  Day t := day t;
  Hour t := hour t;
  Minute t := minute t;
  Second t := second t;
  Microsecond t := microsecond t
}.

(** A time value denotes a [mysqlTime] when every field fits the width
    of its declared type. *)
Definition wfTime {T : Type} `{TimeInternal T} (t : T) : bool :=
  (0 <=? Year t) && (Year t <? 2 ^ 16) &&
  (0 <=? Month t) && (Month t <? 2 ^ 8) &&
  (0 <=? Day t) && (Day t <? 2 ^ 8) &&
  (0 <=? Hour t) && (Hour t <? 2 ^ 8) &&
  (0 <=? Minute t) && (Minute t <? 2 ^ 8) &&
  (0 <=? Second t) && (Second t <? 2 ^ 8) &&
  (0 <=? Microsecond t) && (Microsecond t <? 2 ^ 32).

Definition newMysqlTime (year month day hour minute second microsecond : Z)
  : mysqlTime :=
  {| year := Go.uint16 year;
     month := Go.uint8 month;
     day := Go.uint8 day;
     hour := Go.uint8 hour;
     minute := Go.uint8 minute;
     second := Go.uint8 second;
     microsecond := Go.uint32 microsecond |}.

Definition YearDay (t : mysqlTime) : Z :=
  if (month t =? 0) || (day t =? 0) then 0
  else calcDaynr (year t) (month t) (day t) [-] calcDaynr (year t) 1 1 [+] 1.

(** [calcTimeFromSec] writes through its pointer argument; the embedding
    returns the updated value. *)
Definition calcTimeFromSec (to : mysqlTime) (seconds microseconds : Z)
  : mysqlTime :=
  let h := Go.uint8 (seconds [/] 3600) in
  let seconds := seconds [%] 3600 in
  {| year := year to;
     month := month to;
     day := day to;
     hour := h;
     minute := Go.uint8 (seconds [/] 60);
     second := Go.uint8 (seconds [%] 60);
     microsecond := Go.uint32 microseconds |}.

Definition secondsIn24Hour : Z := 86400.

(** [calcTimeDiff] calculates difference between two datetime values as
    seconds + microseconds.  [sign] can be +1 or -1, and [t2] is
    preprocessed with [sign] first. *)
Definition calcTimeDiff {T1 T2 : Type} `{TimeInternal T1} `{TimeInternal T2}
    (t1 : T1) (t2 : T2) (sign : Z) : Z * Z * bool :=
  let days := calcDaynr (Year t1) (Month t1) (Day t1) in
  let days := days [-] sign [*] calcDaynr (Year t2) (Month t2) (Day t2) in
  let tmp :=
    (days [*] secondsIn24Hour [+]
     Hour t1 [*] 3600 [+] Minute t1 [*] 60 [+]
     Second t1 [-]
     sign [*] (Hour t2 [*] 3600 [+] Minute t2 [*] 60 [+]
               Second t2)) [*]
    1000000 [+]
    Microsecond t1 [-] sign [*] Microsecond t2 in
  let '(tmp, neg) := if tmp <? 0 then (Go.neg tmp, true) else (tmp, false) in
  (tmp [/] 1000000, tmp [%] 1000000, neg).

(** Integer encodings in YYYYMMDD, HHMMSS and YYYYMMDDHHMMSS format. *)
Definition dateToUint64 {T : Type} `{TimeInternal T} (t : T) : Z :=
  Go.uint (Year t) {*} 10000 {+} Go.uint (Month t) {*} 100 {+} Go.uint (Day t).

Definition timeToUint64 {T : Type} `{TimeInternal T} (t : T) : Z :=
  Go.uint (Hour t) {*} 10000 {+} Go.uint (Minute t) {*} 100
  {+} Go.uint (Second t).

Definition datetimeToUint64 {T : Type} `{TimeInternal T} (t : T) : Z :=
  dateToUint64 t {*} 1000000 {+} timeToUint64 t.

(** ** Week numbering *)

(** A [uint] used as a set of three flags. *)
Definition weekBehaviour := Z.

(** If set, Monday is first day of week, otherwise Sunday: [calcWeek]
    passes the negated flag to [calcWeekday] as its Sunday-first
    argument. *)
Definition weekBehaviourMondayFirst : weekBehaviour := 1.
(** If set, week is in range 1-53, otherwise week is in range 0-53. *)
Definition weekBehaviourYear : weekBehaviour := 2.
(** If not set, weeks are numbered according to ISO 8601:1988.  If set,
    the week that contains the first 'first-day-of-week' is week 1. *)
Definition weekBehaviourFirstWeekday : weekBehaviour := 4.

Definition test (v flag : weekBehaviour) : bool :=
  negb (Z.land v flag =? 0).

Definition weekMode (mode : Z) : weekBehaviour :=
  let weekFormat := Go.uint (Z.land mode 7) in
  if Z.land weekFormat weekBehaviourMondayFirst =? 0
  then Z.lxor weekFormat weekBehaviourFirstWeekday
  else weekFormat.

(** [calcWeek] calculates week and year for the time.  The two early
    returns of the source are the branches that do not reach [rest]
    or leave it before the final division. *)
Definition calcWeek (t : mysqlTime) (wb : weekBehaviour) : Z * Z :=
  let daynr := calcDaynr (year t) (month t) (day t) in
  let firstDaynr := calcDaynr (year t) 1 1 in
  let mondayFirst := test wb weekBehaviourMondayFirst in
  let weekYear := test wb weekBehaviourYear in
  let firstWeekday := test wb weekBehaviourFirstWeekday in
  let weekday := calcWeekday firstDaynr (negb mondayFirst) in
  let year := year t in
  let rest (weekYear : bool) (year firstDaynr weekday : Z) : Z * Z :=
    let days :=
      if (firstWeekday && negb (weekday =? 0))
         || (negb firstWeekday && (4 <=? weekday))
      then daynr [-] (firstDaynr [+] 7 [-] weekday)
      else daynr [-] (firstDaynr [-] weekday) in
    if weekYear && (52 * 7 <=? days) then
      let weekday := (weekday [+] calcDaysInYear year) [%] 7 in
      if (negb firstWeekday && (weekday <? 4))
         || (firstWeekday && (weekday =? 0))
      then (year [+] 1, 1)
      else (year, days [/] 7 [+] 1)
    else (year, days [/] 7 [+] 1) in
  if (month t =? 1) && (day t <=? 7 [-] weekday) then
    if negb weekYear
       && ((firstWeekday && negb (weekday =? 0))
           || (negb firstWeekday && (4 <=? weekday)))
    then (year, 0)
    else
      let year := year [-] 1 in
      let days := calcDaysInYear year in
      rest true year (firstDaynr [-] days)
           ((weekday [+] 53 * 7 [-] days) [%] 7)
  else rest weekYear year firstDaynr weekday.

Definition YearWeek (t : mysqlTime) (mode : Z) : Z * Z :=
  let behavior := Z.lor (weekMode mode) weekBehaviourYear in
  calcWeek t behavior.

Definition Week (t : mysqlTime) (mode : Z) : Z :=
  if (month t =? 0) || (day t =? 0) then 0
  else snd (calcWeek t (weekMode mode)).

(** ** Interval differences *)

Definition intervalYEAR : string := "YEAR".
Definition intervalQUARTER : string := "QUARTER".
Definition intervalMONTH : string := "MONTH".
Definition intervalWEEK : string := "WEEK".
Definition intervalDAY : string := "DAY".
Definition intervalHOUR : string := "HOUR".
Definition intervalMINUTE : string := "MINUTE".
Definition intervalSECOND : string := "SECOND".
Definition intervalMICROSECOND : string := "MICROSECOND".

Definition supportedIntervals : list string :=
  [intervalYEAR; intervalQUARTER; intervalMONTH; intervalWEEK; intervalDAY;
   intervalHOUR; intervalMINUTE; intervalSECOND; intervalMICROSECOND].

(** The fields [timestampDiff] reads from one endpoint, converted to
    [uint]: year, month, day, second of the day, microsecond. *)
Definition endpoint {T : Type} `{TimeInternal T} (t : T)
  : Z * Z * Z * Z * Z :=
  (Go.uint (Year t), Go.uint (Month t), Go.uint (Day t),
   Go.uint (Hour t [*] 3600 [+] Minute t [*] 60 [+] Second t),
   Go.uint (Microsecond t)).

(** The month count of [timestampDiff] between a begin and an end
    endpoint, in [uint] arithmetic. *)
Definition monthsBetween (b e : Z * Z * Z * Z * Z) : Z :=
  let '(yearBeg, monthBeg, dayBeg, secondBeg, microsecondBeg) := b in
  let '(yearEnd, monthEnd, dayEnd, secondEnd, microsecondEnd) := e in
  (* calc years *)
  let years := yearEnd {-} yearBeg in
  let years :=
    if (monthEnd <? monthBeg) || ((monthEnd =? monthBeg) && (dayEnd <? dayBeg))
    then years {-} 1 else years in
  (* calc months *)
  let months := 12 {*} years in
  let months :=
    if (monthEnd <? monthBeg) || ((monthEnd =? monthBeg) && (dayEnd <? dayBeg))
    then months {+} (12 {-} (monthBeg {-} monthEnd))
    else months {+} (monthEnd {-} monthBeg) in
  if dayEnd <? dayBeg then months {-} 1
  else if (dayEnd =? dayBeg)
          && ((secondEnd <? secondBeg)
              || ((secondEnd =? secondBeg)
                  && (microsecondEnd <? microsecondBeg)))
  then months {-} 1
  else months.

Definition timestampDiff {T1 T2 : Type} `{TimeInternal T1} `{TimeInternal T2}
    (intervalType : string) (t1 : T1) (t2 : T2) : Z :=
  let '(seconds, microseconds, neg) := calcTimeDiff t2 t1 1 in
  let months :=
    if (intervalType =? intervalYEAR)%string
       || (intervalType =? intervalQUARTER)%string
       || (intervalType =? intervalMONTH)%string
    then
      if neg then monthsBetween (endpoint t2) (endpoint t1)
      else monthsBetween (endpoint t1) (endpoint t2)
    else 0 in
  let negV := if neg then -1 else 1 in
  if (intervalType =? intervalYEAR)%string then
    Go.int months [/] 12 [*] negV
  else if (intervalType =? intervalQUARTER)%string then
    Go.int months [/] 3 [*] negV
  else if (intervalType =? intervalMONTH)%string then
    Go.int months [*] negV
  else if (intervalType =? intervalWEEK)%string then
    seconds [/] secondsIn24Hour [/] 7 [*] negV
  else if (intervalType =? intervalDAY)%string then
    seconds [/] secondsIn24Hour [*] negV
  else if (intervalType =? intervalHOUR)%string then
    seconds [/] 3600 [*] negV
  else if (intervalType =? intervalMINUTE)%string then
    seconds [/] 60 [*] negV
  else if (intervalType =? intervalSECOND)%string then
    seconds [*] negV
  else if (intervalType =? intervalMICROSECOND)%string then
    (seconds [*] 1000000 [+] microseconds) [*] negV
  else 0.

(** ** Conversion to a standard calendar time *)

(** Modelled from the spec: the single error condition of the core,
    whose declaration lies outside this file. *)
Inductive error := ErrInvalidTimeFormat.

(** The part of Go's [time] package that [GoTime] and [Weekday] call.
    The package is outside the repository, so the code is embedded over
    any implementation of it. *)
Class Calendar (Time Location : Type) := {
  Date : Z -> Z -> Z -> Z -> Z -> Z -> Z -> Location -> Time;
  TimeDate : Time -> Z * Z * Z;
  TimeClock : Time -> Z * Z * Z;
  TimeNanosecond : Time -> Z;
  TimeWeekday : Time -> Z;
  Local : Location
}.

Section Conversion.

Context {Time Location : Type} `{Calendar Time Location}.

(** The fields of [tm] as the check of [GoTime] reads them back. *)
Definition reextract (tm : Time) : Z * Z * Z * Z * Z * Z * Z :=
  let '(year, month, day) := TimeDate tm in
  let '(hour, minute, second) := TimeClock tm in
  let microsec := TimeNanosecond tm [/] 1000 in
  (year, month, day, hour, minute, second, microsec).

(** The result pairs the time with the error, as the Go function
    returns both. *)
Definition GoTime (t : mysqlTime) (loc : Location) : Time * option error :=
  let tm := Date (Year t) (Month t) (Day t) (Hour t) (Minute t) (Second t)
                 (Microsecond t [*] 1000) loc in
  let '(year, month, day, hour, minute, second, microsec) := reextract tm in
  if negb (year =? Year t) || negb (month =? Month t) || negb (day =? Day t)
     || negb (hour =? Hour t) || negb (minute =? Minute t)
     || negb (second =? Second t)
     || negb (microsec =? Microsecond t)
  then (tm, Some ErrInvalidTimeFormat)
  else (tm, None).

Definition Weekday (t : mysqlTime) : Z :=
  match GoTime t Local with
  | (_, Some _) => 0
  | (t1, None) => TimeWeekday t1
  end.

End Conversion.

(** ** A standard calendar *)

Module StdCalendar.

(** A zone is a fixed offset east of UTC, in seconds. *)
Definition Location := Z.
Definition UTC : Location := 0.

(** An instant: seconds since 1970-01-01T00:00:00Z, the nanoseconds
    within that second, and the zone it is displayed in. *)
Record Time := { unix : Z; nano : Z; zone : Location }.

(** [norm hi lo base] carries [lo] into [hi] so that [0 <= lo < base]. *)
Definition norm (hi lo base : Z) : Z * Z := (hi + lo / base, lo mod base).

(** Days from 1970-01-01 to the given proleptic Gregorian date, whose
    month is in 1..12; the day may be any integer. *)
Definition daysFromCivil (y m d : Z) : Z :=
  let y := if m <=? 2 then y - 1 else y in
  let era := y / 400 in
  let yoe := y mod 400 in
  let mp := (m + 9) mod 12 in
  let doy := (153 * mp + 2) / 5 + d - 1 in
  let doe := yoe * 365 + yoe / 4 - yoe / 100 + doy in
  era * 146097 + doe - 719468.

(** The proleptic Gregorian date of a day count from 1970-01-01. *)
Definition civilFromDays (z : Z) : Z * Z * Z :=
  let z := z + 719468 in
  let era := z / 146097 in
  let doe := z mod 146097 in
  let yoe := (doe - doe / 1460 + doe / 36524 - doe / 146096) / 365 in
  let doy := doe - (365 * yoe + yoe / 4 - yoe / 100) in
  let mp := (5 * doy + 2) / 153 in
  let d := doy - (153 * mp + 2) / 5 + 1 in
  let m := if mp <? 10 then mp + 3 else mp - 9 in
  let y := yoe + era * 400 in
  (if m <=? 2 then y + 1 else y, m, d).

(** Modelled from the spec: the standard-calendar constructor of Go's
    [time] package, which is not part of the repository.  It cannot
    represent month 0 or day 0 and silently normalizes out-of-range
    values to a nearby valid date: every field overflows into the next
    larger one. *)
Definition Date (year month day hour min sec nsec : Z) (loc : Location)
  : Time :=
  let '(year, m) := norm year (month - 1) 12 in
  let '(sec, nsec) := norm sec nsec 1000000000 in
  let '(min, sec) := norm min sec 60 in
  let '(hour, min) := norm hour min 60 in
  let '(day, hour) := norm day hour 24 in
  let days := daysFromCivil year (m + 1) 1 + (day - 1) in
  {| unix := days * 86400 + hour * 3600 + min * 60 + sec - loc;
     nano := nsec;
     zone := loc |}.

(** Seconds since 1970-01-01T00:00:00 on the wall clock of the zone. *)
Definition wall (tm : Time) : Z := unix tm + zone tm.

(** Modelled from the spec: the accessors of a standard calendar time
    that [GoTime] uses to re-extract year, month and day, then hour,
    minute and second, then the nanoseconds.  They belong to Go's [time]
    package and read the time in its own zone. *)
Definition TimeDate (tm : Time) : Z * Z * Z :=
  civilFromDays (wall tm / 86400).

Definition TimeClock (tm : Time) : Z * Z * Z :=
  let s := wall tm mod 86400 in
  (s / 3600, s mod 3600 / 60, s mod 60).

Definition TimeNanosecond (tm : Time) : Z := nano tm.

(** Sunday is 0; 1970-01-01 was a Thursday. *)
Definition TimeWeekday (tm : Time) : Z := (wall tm / 86400 + 4) mod 7.

(** The calendar of a host whose local zone is UTC.  Zones here are
    fixed offsets; a zone with transitions, in which some wall-clock
    times do not exist, is not represented.  What is proved of
    [Weekday], which converts in the host's zone, is therefore stated
    over any implementation of the package. *)
#[global] Instance calendar : Calendar Time Location := {
  Date := Date;
  TimeDate := TimeDate;
  TimeClock := TimeClock;
  TimeNanosecond := TimeNanosecond;
  TimeWeekday := TimeWeekday;
  Local := UTC
}.

End StdCalendar.

(** ** Real calendar dates and their order *)

Module Gregorian.

Definition isLeap (y : Z) : bool :=
  (y mod 4 =? 0) && (negb (y mod 100 =? 0) || (y mod 400 =? 0)).

Definition daysInMonth (y m : Z) : Z :=
  if m =? 2 then (if isLeap y then 29 else 28)
  else if (m =? 4) || (m =? 6) || (m =? 9) || (m =? 11) then 30
  else 31.

Definition validDate (y m d : Z) : bool :=
  (1 <=? m) && (m <=? 12) && (1 <=? d) && (d <=? daysInMonth y m).

(** The calendar day that follows a valid date. *)
Definition nextDate (y m d : Z) : Z * Z * Z :=
  if d <? daysInMonth y m then (y, m, d + 1)
  else if m <? 12 then (y, m + 1, 1)
  else (y + 1, 1, 1).

(** A time value that names an existing day of the proleptic Gregorian
    calendar and a wall-clock time of day. *)
Definition civilTime {T : Type} `{TimeInternal T} (t : T) : bool :=
  validDate (Year t) (Month t) (Day t)
  && (0 <=? Hour t) && (Hour t <? 24)
  && (0 <=? Minute t) && (Minute t <? 60)
  && (0 <=? Second t) && (Second t <? 60)
  && (0 <=? Microsecond t) && (Microsecond t <? 1000000).

(** A real date-time from year 1 on whose year fits the year field. *)
Definition validTime {T : Type} `{TimeInternal T} (t : T) : bool :=
  (1 <=? Year t) && (Year t <? 2 ^ 16) && civilTime t.

(** Lexicographic comparison of two field lists. *)
Fixpoint lexCompare (a b : list Z) : comparison :=
  match a, b with
  | x :: a', y :: b' =>
      match x ?= y with
      | Eq => lexCompare a' b'
      | c => c
      end
  | [], [] => Eq
  | [], _ :: _ => Lt
  | _ :: _, [] => Gt
  end.

Definition fields {T : Type} `{TimeInternal T} (t : T) : list Z :=
  [Year t; Month t; Day t; Hour t; Minute t; Second t; Microsecond t].

(** Chronological order of time values: field by field, from the year
    down to the microsecond. *)
Definition compareTime {T1 T2 : Type} `{TimeInternal T1} `{TimeInternal T2}
    (t1 : T1) (t2 : T2) : comparison :=
  lexCompare (fields t1) (fields t2).

Definition earlier {T1 T2 : Type} `{TimeInternal T1} `{TimeInternal T2}
    (t1 : T1) (t2 : T2) : Prop := compareTime t1 t2 = Lt.

Definition notLater {T1 T2 : Type} `{TimeInternal T1} `{TimeInternal T2}
    (t1 : T1) (t2 : T2) : Prop := compareTime t1 t2 <> Gt.

End Gregorian.

(** ** Unbounded counterparts

    The same computations over mathematical integers.  The properties
    below relate the machine functions to them on the inputs where no
    operation overflows. *)

Definition leapDays (y : Z) : Z := y ÷ 4 - ((y ÷ 100 + 1) * 3) ÷ 4.

Definition daynr (year month day : Z) : Z :=
  if (year =? 0) && (month =? 0) then 0
  else
    365 * year + 31 * (month - 1) + day
    - (if month <=? 2 then 0 else (month * 4 + 23) ÷ 10)
    + leapDays (if month <=? 2 then year - 1 else year).

(** Seconds since midnight and microseconds since day number 0. *)
Definition secondOfDay {T : Type} `{TimeInternal T} (t : T) : Z :=
  Hour t * 3600 + Minute t * 60 + Second t.

Definition micros {T : Type} `{TimeInternal T} (t : T) : Z :=
  (daynr (Year t) (Month t) (Day t) * 86400 + secondOfDay t) * 1000000
  + Microsecond t.

(** ** Sample values and the sign convention *)

Definition date20000101 : mysqlTime := newMysqlTime 2000 1 1 0 0 0 0.
Definition date20000102 : mysqlTime := newMysqlTime 2000 1 2 0 0 0 0.
Definition time20000315 : mysqlTime := newMysqlTime 2000 3 15 12 30 0 0.
Definition time20001130 : mysqlTime := newMysqlTime 2000 11 30 1 0 0 0.
(** A date with the zero month and zero day sentinels. *)
Definition time20010000 : mysqlTime := newMysqlTime 2001 0 0 0 0 0 0.

(** The sign convention of [timestampDiff] for one unit and one pair of
    time values: the flag of the underlying difference is clear exactly
    when [t2] is not earlier than [t1], and the result is positive only
    when [t2] is later and negative only when [t1] is later. *)
Definition signConvention {T1 T2 : Type} `{TimeInternal T1} `{TimeInternal T2}
    (u : string) (t1 : T1) (t2 : T2) : Prop :=
  let neg := snd (calcTimeDiff t2 t1 1) in
  let r := timestampDiff u t1 t2 in
  (neg = false <-> Gregorian.notLater t1 t2) /\
  (Gregorian.notLater t1 t2 -> 0 <= r) /\
  (Gregorian.earlier t2 t1 -> r <= 0) /\
  (0 < r -> Gregorian.earlier t1 t2) /\
  (r < 0 -> Gregorian.earlier t2 t1).

(** ** Notions for the further properties *)

(** Month, day, hour, minute and second of at most two decimal digits,
    as the YYYYMMDDHHMMSS encodings assume. *)
Definition twoDigitFields {T : Type} `{TimeInternal T} (t : T) : bool :=
  (Month t <? 100) && (Day t <? 100) && (Hour t <? 100)
  && (Minute t <? 100) && (Second t <? 100).

(** Day number of the first day of week 1 of year [y], by the test
    [calcWeek] applies to the weekday of January 1: week 1 starts on the
    first week-start day of the year (FirstWeekday), or is the week that
    holds at least four days of the year (otherwise). *)
Definition weekOneStart (wb : weekBehaviour) (y : Z) : Z :=
  let first := calcDaynr y 1 1 in
  let weekday := calcWeekday first (negb (test wb weekBehaviourMondayFirst)) in
  let firstWeekday := test wb weekBehaviourFirstWeekday in
  if (firstWeekday && negb (weekday =? 0))
     || (negb firstWeekday && (4 <=? weekday))
  then first + 7 - weekday
  else first - weekday.


(** * Properties *)

Import Gregorian.

(** ** Removing wrap-around *)

Lemma int_id (z : Z) : - 2 ^ 63 <= z <= 2 ^ 63 - 1 -> Go.int z = z.
Proof. intros Hz. unfold Go.int. rewrite Z.mod_small; lia. Qed.

Lemma uint_id (z : Z) : 0 <= z <= 2 ^ 64 - 1 -> Go.uint z = z.
Proof. intros Hz. unfold Go.uint. rewrite Z.mod_small; lia. Qed.

Ltac quot_lia := Z.to_euclidean_division_equations; lia.

(** Drop the conversions of in-range values, innermost first. *)
Ltac strip_int :=
  repeat match goal with
  | |- context [Go.int ?z] =>
      lazymatch z with
      | context [Go.int _] => fail
      | _ => rewrite (int_id z) by quot_lia
      end
  end.

Ltac strip_uint :=
  repeat match goal with
  | |- context [Go.uint ?z] =>
      lazymatch z with
      | context [Go.uint _] => fail
      | _ => rewrite (uint_id z) by lia
      end
  end.

Ltac go_unfold :=
  unfold Go.add, Go.sub, Go.mul, Go.div, Go.rem, Go.neg,
         Go.uadd, Go.usub, Go.umul.

(** Turn boolean tests in the context into propositions. *)
Ltac bool_hyps :=
  repeat match goal with
  | H : _ && _ = true |- _ => apply andb_prop in H; destruct H
  | H : _ || _ = false |- _ => apply orb_false_elim in H; destruct H
  | H : negb _ = true |- _ => apply negb_true_iff in H
  | H : negb _ = false |- _ => apply negb_false_iff in H
  | H : (_ <=? _) = true |- _ => apply Z.leb_le in H
  | H : (_ <? _) = true |- _ => apply Z.ltb_lt in H
  | H : (_ =? _) = true |- _ => apply Z.eqb_eq in H
  | H : (_ <=? _) = false |- _ => apply Z.leb_gt in H
  | H : (_ <? _) = false |- _ => apply Z.ltb_ge in H
  | H : (_ =? _) = false |- _ => apply Z.eqb_neq in H
  end.

Ltac split_ifs :=
  repeat match goal with
  | |- context [if ?c then _ else _] =>
      lazymatch c with
      | context [if _ then _ else _] => fail
      | _ => let E := fresh "E" in destruct c eqn:E
      end
  end.

(** ** Day numbers *)

Lemma calcDaynr_daynr (y m d : Z) :
  0 <= y <= 10 ^ 16 -> 0 <= m <= 10 ^ 9 -> 0 <= d <= 10 ^ 9 ->
  calcDaynr y m d = daynr y m d.
Proof.
  intros Hy Hm Hd. unfold calcDaynr, daynr, leapDays.
  destruct ((y =? 0) && (m =? 0)); [reflexivity|].
  destruct (m <=? 2) eqn:E; go_unfold; strip_int; lia.
Qed.

Lemma daynr_range (y m d : Z) :
  0 <= y < 2 ^ 16 -> 0 <= m < 2 ^ 8 -> 0 <= d < 2 ^ 8 ->
  -31 <= daynr y m d <= 24000000.
Proof.
  intros Hy Hm Hd. unfold daynr, leapDays.
  destruct ((y =? 0) && (m =? 0)); [lia|].
  destruct (m <=? 2) eqn:E; quot_lia.
Qed.

Lemma daynr_unfold (y m d : Z) :
  1 <= y ->
  daynr y m d =
  365 * y + 31 * (m - 1) + d
  - (if m <=? 2 then 0 else (m * 4 + 23) ÷ 10)
  + leapDays (if m <=? 2 then y - 1 else y).
Proof.
  intros Hy. unfold daynr.
  replace (y =? 0) with false by (symmetry; apply Z.eqb_neq; lia).
  reflexivity.
Qed.

Lemma month_cases (m : Z) :
  1 <= m <= 12 ->
  m = 1 \/ m = 2 \/ m = 3 \/ m = 4 \/ m = 5 \/ m = 6 \/
  m = 7 \/ m = 8 \/ m = 9 \/ m = 10 \/ m = 11 \/ m = 12.
Proof. lia. Qed.

Ltac each_month m :=
  let Hm := fresh "Hm" in
  assert (1 <= m <= 12) as Hm by lia;
  apply month_cases in Hm;
  destruct Hm as [->|[->|[->|[->|[->|[->|[->|[->|[->|[->|[->| ->]]]]]]]]]]].

Lemma isLeap_spec (y : Z) :
  isLeap y = true <-> y mod 4 = 0 /\ (y mod 100 <> 0 \/ y mod 400 = 0).
Proof.
  unfold isLeap. rewrite andb_true_iff, orb_true_iff, negb_true_iff.
  rewrite !Z.eqb_eq, Z.eqb_neq. tauto.
Qed.

(** The leap rule of the source is the Gregorian one from year 1 on. *)
Lemma calcDaysInYear_isLeap (y : Z) :
  1 <= y -> calcDaysInYear y = if isLeap y then 366 else 365.
Proof.
  intros Hy. unfold calcDaysInYear, isLeap, Go.rem.
  change 3 with (Z.ones 2). rewrite Z.land_ones by lia.
  rewrite !Z.rem_mod_nonneg by lia.
  replace (y =? 0) with false by (symmetry; apply Z.eqb_neq; lia).
  change (2 ^ 2) with 4. rewrite andb_true_r. reflexivity.
Qed.

Lemma leapDays_step (y : Z) :
  1 <= y -> leapDays y = leapDays (y - 1) + (if isLeap y then 1 else 0).
Proof.
  intros Hy. unfold leapDays. pose proof (isLeap_spec y) as HL.
  destruct (isLeap y).
  - destruct HL as [HL _]. specialize (HL eq_refl). quot_lia.
  - assert (~ (y mod 4 = 0 /\ (y mod 100 <> 0 \/ y mod 400 = 0))) as HN
      by (intros HN; apply HL in HN; discriminate).
    clear HL. quot_lia.
Qed.

Lemma leapDays_mono (a b : Z) : 0 <= a <= b -> leapDays a <= leapDays b.
Proof.
  intros [Ha Hab]. revert Ha. pattern b.
  apply Z.le_ind with (n := a); try assumption.
  - intros x y ->. tauto.
  - lia.
  - intros m Hm IH Ha. rewrite (leapDays_step (Z.succ m)) by lia.
    replace (Z.succ m - 1) with m by lia.
    specialize (IH Ha). destruct (isLeap (Z.succ m)); lia.
Qed.

Lemma validDate_bounds (y m d : Z) :
  validDate y m d = true -> 1 <= m <= 12 /\ 1 <= d <= 31.
Proof.
  unfold validDate, daysInMonth. intros Hv. bool_hyps.
  destruct (m =? 2); [destruct (isLeap y); lia|].
  match goal with
  | H : d <= (if ?c then _ else _) |- _ => destruct c
  end; lia.
Qed.

(** The day after a valid date has the next day number. *)
Lemma daynr_nextDate (y m d : Z) :
  1 <= y -> validDate y m d = true ->
  let '(y', m', d') := nextDate y m d in
  daynr y' m' d' = daynr y m d + 1.
Proof.
  intros Hy Hv. unfold validDate in Hv. bool_hyps.
  unfold nextDate.
  destruct (d <? daysInMonth y m) eqn:Ed.
  - rewrite !daynr_unfold by lia. lia.
  - unfold daysInMonth in *. pose proof (leapDays_step y Hy) as HL.
    destruct (isLeap y); each_month m;
    simpl in * |-; bool_hyps; simpl;
    rewrite !daynr_unfold by lia;
    cbn [Z.leb Z.compare Pos.compare Pos.compare_cont];
    rewrite ?Z.add_simpl_r; quot_lia.
Qed.

(** Day of the year, from 0, of a valid date. *)
Lemma daynr_yearday (y m d : Z) :
  1 <= y -> validDate y m d = true ->
  0 <= daynr y m d - daynr y 1 1 <= 364 + (if isLeap y then 1 else 0).
Proof.
  intros Hy Hv. unfold validDate in Hv. bool_hyps.
  unfold daysInMonth in *. pose proof (leapDays_step y Hy) as HL.
  destruct (isLeap y); each_month m;
  simpl in * |-; bool_hyps;
  rewrite !daynr_unfold by lia;
  cbn [Z.leb Z.compare Pos.compare Pos.compare_cont];
  quot_lia.
Qed.

Lemma daynr_year_start (y : Z) :
  1 <= y ->
  daynr (y + 1) 1 1 = daynr y 1 1 + 365 + (if isLeap y then 1 else 0).
Proof.
  intros Hy. rewrite !daynr_unfold by lia.
  cbn [Z.leb Z.compare Pos.compare Pos.compare_cont].
  rewrite Z.add_simpl_r. rewrite (leapDays_step y Hy). lia.
Qed.

Lemma daynr_year_start_mono (a b : Z) :
  1 <= a <= b -> daynr a 1 1 + 365 * (b - a) <= daynr b 1 1.
Proof.
  intros Hab. rewrite !daynr_unfold by lia.
  cbn [Z.leb Z.compare Pos.compare Pos.compare_cont].
  pose proof (leapDays_mono (a - 1) (b - 1)). lia.
Qed.

Lemma daynr_month_lt (y m1 d1 m2 d2 : Z) :
  1 <= y -> validDate y m1 d1 = true -> validDate y m2 d2 = true ->
  m1 < m2 -> daynr y m1 d1 < daynr y m2 d2.
Proof.
  intros Hy Hv1 Hv2 Hm. unfold validDate in Hv1, Hv2. bool_hyps.
  unfold daysInMonth in *. pose proof (leapDays_step y Hy) as HL.
  rewrite !daynr_unfold by lia.
  destruct (isLeap y); each_month m1;
  simpl in * |-; bool_hyps;
  cbn [Z.leb Z.compare Pos.compare Pos.compare_cont];
  destruct (m2 <=? 2) eqn:E2; bool_hyps; try lia; quot_lia.
Qed.

(** Day numbers order valid dates as the calendar does. *)
Lemma daynr_lex_lt (y1 m1 d1 y2 m2 d2 : Z) :
  1 <= y1 -> 1 <= y2 ->
  validDate y1 m1 d1 = true -> validDate y2 m2 d2 = true ->
  y1 < y2 \/ y1 = y2 /\ (m1 < m2 \/ m1 = m2 /\ d1 < d2) ->
  daynr y1 m1 d1 < daynr y2 m2 d2.
Proof.
  intros Hy1 Hy2 Hv1 Hv2 [Hlt | [-> [Hlt | [-> Hlt]]]].
  - pose proof (daynr_yearday y1 m1 d1 Hy1 Hv1).
    pose proof (daynr_yearday y2 m2 d2 Hy2 Hv2).
    pose proof (daynr_year_start y1 Hy1).
    pose proof (daynr_year_start_mono (y1 + 1) y2).
    destruct (isLeap y1); lia.
  - now apply daynr_month_lt.
  - rewrite !daynr_unfold by lia. lia.
Qed.

(** ** Time values in range *)

Lemma wfTime_bounds {T : Type} `{TimeInternal T} (t : T) :
  wfTime t = true ->
  0 <= Year t < 2 ^ 16 /\ 0 <= Month t < 2 ^ 8 /\ 0 <= Day t < 2 ^ 8 /\
  0 <= Hour t < 2 ^ 8 /\ 0 <= Minute t < 2 ^ 8 /\ 0 <= Second t < 2 ^ 8 /\
  0 <= Microsecond t < 2 ^ 32.
Proof. unfold wfTime. intros Hw. bool_hyps. lia. Qed.

Lemma civilTime_bounds {T : Type} `{TimeInternal T} (t : T) :
  civilTime t = true ->
  validDate (Year t) (Month t) (Day t) = true /\
  1 <= Month t <= 12 /\ 1 <= Day t <= 31 /\
  0 <= Hour t < 24 /\ 0 <= Minute t < 60 /\ 0 <= Second t < 60 /\
  0 <= Microsecond t < 1000000.
Proof.
  unfold civilTime. intros Hv. bool_hyps.
  match goal with
  | Hd : validDate _ _ _ = true |- _ =>
      pose proof (validDate_bounds _ _ _ Hd)
  end.
  repeat split; try assumption; lia.
Qed.

Lemma validTime_bounds {T : Type} `{TimeInternal T} (t : T) :
  validTime t = true ->
  1 <= Year t < 2 ^ 16 /\ validDate (Year t) (Month t) (Day t) = true /\
  1 <= Month t <= 12 /\ 1 <= Day t <= 31 /\
  0 <= Hour t < 24 /\ 0 <= Minute t < 60 /\ 0 <= Second t < 60 /\
  0 <= Microsecond t < 1000000.
Proof.
  unfold validTime. intros Hv. bool_hyps.
  match goal with
  | Hc : civilTime _ = true |- _ => apply civilTime_bounds in Hc
  end.
  split; [lia | assumption].
Qed.

Lemma validTime_wfTime {T : Type} `{TimeInternal T} (t : T) :
  validTime t = true -> wfTime t = true.
Proof.
  intros Hv. apply validTime_bounds in Hv. unfold wfTime.
  repeat (apply andb_true_intro; split);
    first [apply Z.leb_le | apply Z.ltb_lt]; lia.
Qed.

Lemma micros_range {T : Type} `{TimeInternal T} (t : T) :
  wfTime t = true -> - 3 * 10 ^ 12 <= micros t <= 3 * 10 ^ 18.
Proof.
  intros Hw. apply wfTime_bounds in Hw.
  pose proof (daynr_range (Year t) (Month t) (Day t)) as R.
  unfold micros, secondOfDay.
  generalize dependent (daynr (Year t) (Month t) (Day t)). intros n R.
  specialize (R ltac:(lia) ltac:(lia) ltac:(lia)). lia.
Qed.

Lemma endpoint_valid {T : Type} `{TimeInternal T} (t : T) :
  validTime t = true ->
  endpoint t = (Year t, Month t, Day t, secondOfDay t, Microsecond t).
Proof.
  intros Hv. apply validTime_bounds in Hv.
  unfold endpoint, secondOfDay. go_unfold. strip_int. strip_uint.
  reflexivity.
Qed.

(** ** Signed differences *)

Section Diff.

Context {T1 T2 : Type} `{TimeInternal T1} `{TimeInternal T2}.

(** On values of the field widths nothing overflows, and the result is
    the absolute difference of the microsecond counts. *)
Lemma calcTimeDiff_micros (t1 : T1) (t2 : T2) (sign : Z) :
  wfTime t1 = true -> wfTime t2 = true -> sign = 1 \/ sign = -1 ->
  calcTimeDiff t1 t2 sign =
  let d := micros t1 - sign * micros t2 in
  (Z.abs d ÷ 1000000, Z.rem (Z.abs d) 1000000, d <? 0).
Proof.
  intros Hw1 Hw2 Hs.
  apply wfTime_bounds in Hw1, Hw2.
  pose proof (daynr_range (Year t1) (Month t1) (Day t1)) as R1.
  pose proof (daynr_range (Year t2) (Month t2) (Day t2)) as R2.
  unfold calcTimeDiff, micros, secondOfDay, secondsIn24Hour.
  rewrite !calcDaynr_daynr by lia.
  generalize dependent (daynr (Year t1) (Month t1) (Day t1)).
  generalize dependent (daynr (Year t2) (Month t2) (Day t2)).
  intros n2 R2 n1 R1.
  specialize (R1 ltac:(lia) ltac:(lia) ltac:(lia)).
  specialize (R2 ltac:(lia) ltac:(lia) ltac:(lia)).
  go_unfold.
  destruct Hs as [-> | ->]; strip_int; cbv zeta.
  all: match goal with
       | |- context [if ?E <? 0 then _ else _] =>
           match goal with
           | |- _ = (Z.abs ?d ÷ _, _, _) => replace d with E by ring
           end
       end.
  all: match goal with
       | |- context [?E <? 0] => destruct (E <? 0) eqn:Eneg
       end.
  all: cbv beta iota; bool_hyps; strip_int.
  all: rewrite ?Z.abs_neq, ?Z.abs_eq by lia; reflexivity.
Qed.

(** On real date-times the field order is the order of the microsecond
    counts. *)
Lemma compareTime_micros (t1 : T1) (t2 : T2) :
  validTime t1 = true -> validTime t2 = true ->
  compareTime t1 t2 = (micros t1 ?= micros t2).
Proof.
  intros Hv1 Hv2.
  apply validTime_bounds in Hv1, Hv2.
  destruct Hv1 as (Hy1 & Hd1 & _ & _ & Hh1 & Hm1 & Hs1 & Hu1).
  destruct Hv2 as (Hy2 & Hd2 & _ & _ & Hh2 & Hm2 & Hs2 & Hu2).
  pose proof (daynr_lex_lt (Year t1) (Month t1) (Day t1)
                           (Year t2) (Month t2) (Day t2)
                           (proj1 Hy1) (proj1 Hy2) Hd1 Hd2) as Hlt.
  pose proof (daynr_lex_lt (Year t2) (Month t2) (Day t2)
                           (Year t1) (Month t1) (Day t1)
                           (proj1 Hy2) (proj1 Hy1) Hd2 Hd1) as Hgt.
  assert (Year t1 = Year t2 -> Month t1 = Month t2 -> Day t1 = Day t2 ->
          daynr (Year t1) (Month t1) (Day t1)
          = daynr (Year t2) (Month t2) (Day t2)) as Heq
    by (intros -> -> ->; reflexivity).
  unfold compareTime, fields, micros, secondOfDay; cbn [lexCompare].
  generalize dependent (daynr (Year t1) (Month t1) (Day t1)).
  generalize dependent (daynr (Year t2) (Month t2) (Day t2)).
  intros n2 n1 Hlt Hgt Heq.
  repeat match goal with
  | |- context [?a ?= ?b] =>
      lazymatch a with
      | context [n1] => fail
      | _ => destruct (Z.compare_spec a b)
      end
  end.
  all: symmetry.
  all: first [apply Z.compare_eq_iff | apply Z.compare_lt_iff
             | apply Z.compare_gt_iff].
  all: lia.
Qed.

(** Between a begin that is not after the end, the month count neither
    wraps around nor turns negative. *)
Lemma monthsBetween_range (b : T1) (e : T2) :
  validTime b = true -> validTime e = true ->
  micros b <= micros e ->
  0 <= monthsBetween (endpoint b) (endpoint e) <= 12 * 2 ^ 16
  /\ (micros b = micros e -> monthsBetween (endpoint b) (endpoint e) = 0).
Proof.
  intros Hvb Hve Hle.
  rewrite !endpoint_valid by assumption.
  apply validTime_bounds in Hvb, Hve.
  destruct Hvb as (Hy1 & Hd1 & HM1 & HD1 & Hh1 & Hm1 & Hs1 & Hu1).
  destruct Hve as (Hy2 & Hd2 & HM2 & HD2 & Hh2 & Hm2 & Hs2 & Hu2).
  pose proof (daynr_lex_lt (Year b) (Month b) (Day b)
                           (Year e) (Month e) (Day e)
                           (proj1 Hy1) (proj1 Hy2) Hd1 Hd2) as Hlt.
  pose proof (daynr_lex_lt (Year e) (Month e) (Day e)
                           (Year b) (Month b) (Day b)
                           (proj1 Hy2) (proj1 Hy1) Hd2 Hd1) as Hgt.
  assert (Year b = Year e -> Month b = Month e -> Day b = Day e ->
          daynr (Year b) (Month b) (Day b)
          = daynr (Year e) (Month e) (Day e)) as Heq
    by (intros -> -> ->; reflexivity).
  unfold micros in *.
  generalize dependent (daynr (Year b) (Month b) (Day b)).
  generalize dependent (daynr (Year e) (Month e) (Day e)).
  intros n2 n1 Hle Hlt Hgt Heq.
  assert (0 <= secondOfDay b < 86400) as Hsb by (unfold secondOfDay; lia).
  assert (0 <= secondOfDay e < 86400) as Hse by (unfold secondOfDay; lia).
  generalize dependent (secondOfDay b). generalize dependent (secondOfDay e).
  intros s2 Hs2' s1 Hle Hs1'.
  clear Hd1 Hd2.
  unfold monthsBetween. go_unfold.
  split_ifs; bool_hyps; strip_uint; lia.
Qed.

End Diff.

(** ** Interval differences *)

Section Sign.

Context {T1 T2 : Type} `{TimeInternal T1} `{TimeInternal T2}.

(** The result is a non-negative quantity that carries the sign of the
    difference of the microsecond counts. *)
Lemma timestampDiff_magnitude (u : string) (t1 : T1) (t2 : T2) :
  In u supportedIntervals ->
  validTime t1 = true -> validTime t2 = true ->
  exists q : Z,
    0 <= q /\ (micros t1 = micros t2 -> q = 0) /\
    timestampDiff u t1 t2 = if micros t2 - micros t1 <? 0 then - q else q.
Proof.
  intros Hu Hv1 Hv2.
  pose proof (validTime_wfTime t1 Hv1) as Hw1.
  pose proof (validTime_wfTime t2 Hv2) as Hw2.
  pose proof (micros_range t1 Hw1) as R1.
  pose proof (micros_range t2 Hw2) as R2.
  unfold timestampDiff.
  rewrite (calcTimeDiff_micros t2 t1 1 Hw2 Hw1 (or_introl eq_refl)).
  cbv zeta.
  replace (micros t2 - 1 * micros t1) with (micros t2 - micros t1) by lia.
  destruct (micros t2 - micros t1 <? 0) eqn:Eneg; bool_hyps.
  - destruct (monthsBetween_range t2 t1 Hv2 Hv1 ltac:(lia)) as [Rm Zm].
    set (m := monthsBetween (endpoint t2) (endpoint t1)) in *.
    rewrite Z.abs_neq by lia.
    set (d := - (micros t2 - micros t1)) in *.
    assert (0 < d <= 4 * 10 ^ 18) as Hd by (unfold d; lia).
    clearbody d m.
    unfold supportedIntervals in Hu. cbn [In] in Hu.
    repeat (destruct Hu as [<- | Hu]); try contradiction;
      cbv beta iota delta [String.eqb Ascii.eqb Bool.eqb orb
        intervalYEAR intervalQUARTER intervalMONTH intervalWEEK intervalDAY
        intervalHOUR intervalMINUTE intervalSECOND intervalMICROSECOND];
      unfold secondsIn24Hour; go_unfold; strip_int.
    all: eexists; split; [|split; [|rewrite <- Z.opp_eq_mul_m1; reflexivity]];
      [quot_lia | lia].
  - destruct (monthsBetween_range t1 t2 Hv1 Hv2 ltac:(lia)) as [Rm Zm].
    set (m := monthsBetween (endpoint t1) (endpoint t2)) in *.
    rewrite Z.abs_eq by lia.
    set (d := micros t2 - micros t1) in *.
    assert (0 <= d <= 4 * 10 ^ 18) as Hd by (unfold d; lia).
    assert (micros t1 = micros t2 -> d = 0) as Hz by (unfold d; lia).
    clearbody d m.
    unfold supportedIntervals in Hu. cbn [In] in Hu.
    repeat (destruct Hu as [<- | Hu]); try contradiction;
      cbv beta iota delta [String.eqb Ascii.eqb Bool.eqb orb
        intervalYEAR intervalQUARTER intervalMONTH intervalWEEK intervalDAY
        intervalHOUR intervalMINUTE intervalSECOND intervalMICROSECOND];
      unfold secondsIn24Hour; go_unfold; strip_int.
    all: eexists; split; [|split; [|rewrite Z.mul_1_r; reflexivity]];
      [quot_lia
      | intros Hq; specialize (Hz Hq); specialize (Zm Hq); quot_lia].
Qed.

End Sign.

(** ** The standard calendar *)

Lemma isLeap_cases (y : Z) :
  (isLeap y = true /\ y mod 4 = 0 /\ (y mod 100 <> 0 \/ y mod 400 = 0)) \/
  (isLeap y = false /\ (y mod 4 <> 0 \/ (y mod 100 = 0 /\ y mod 400 <> 0))).
Proof.
  pose proof (isLeap_spec y) as HL. destruct (isLeap y).
  - left. split; [reflexivity|]. apply HL. reflexivity.
  - right. split; [reflexivity|].
    assert (~ (y mod 4 = 0 /\ (y mod 100 <> 0 \/ y mod 400 = 0))) as HN
      by (intros HN; apply HL in HN; discriminate).
    lia.
Qed.

(** Every day count is the count of the date it converts to, and that
    date exists. *)
Lemma daysFromCivil_civilFromDays (z : Z) :
  let '(y, m, d) := StdCalendar.civilFromDays z in
  StdCalendar.daysFromCivil y m d = z /\ validDate y m d = true.
Proof.
  unfold StdCalendar.civilFromDays, StdCalendar.daysFromCivil.
  set (doe := (z + 719468) mod 146097).
  set (era := (z + 719468) / 146097).
  assert (0 <= doe < 146097) as Hdoe by (apply Z.mod_pos_bound; lia).
  assert (z + 719468 = era * 146097 + doe) as Hz
    by (unfold era, doe; quot_lia).
  set (yoe := (doe - doe / 1460 + doe / 36524 - doe / 146096) / 365).
  set (doy := doe - (365 * yoe + yoe / 4 - yoe / 100)).
  assert (0 <= yoe <= 399 /\ 0 <= doy <= 365) as [Hyoe Hdoy]
    by (unfold doy, yoe; quot_lia).
  assert (doy = 365 -> yoe mod 4 = 3 /\ (yoe mod 100 <> 99 \/ yoe = 399))
    as Hleap by (unfold doy, yoe; quot_lia).
  assert (doe = 365 * yoe + yoe / 4 - yoe / 100 + doy) as Hdoe'
    by (unfold doy; lia).
  clearbody doy yoe. clearbody era doe.
  set (mp := (5 * doy + 2) / 153).
  assert (0 <= mp <= 11) as Hmp by (unfold mp; quot_lia).
  assert (153 * mp <= 5 * doy + 2 < 153 * (mp + 1)) as Hmpd
    by (unfold mp; quot_lia).
  clearbody mp.
  set (m := if mp <? 10 then mp + 3 else mp - 9).
  assert (1 <= m <= 12 /\ (m + 9) mod 12 = mp /\ (m <= 2 <-> 10 <= mp))
    as (Hm & Hmm & Hm2).
  { unfold m. destruct (mp <? 10) eqn:E; bool_hyps; quot_lia. }
  clearbody m. rewrite Hmm.
  set (d := doy - (153 * mp + 2) / 5 + 1).
  assert ((153 * mp + 2) / 5 + d - 1 = doy) as Hd by (unfold d; lia).
  rewrite Hd.
  set (y := if m <=? 2 then yoe + era * 400 + 1 else yoe + era * 400).
  assert ((if m <=? 2 then y - 1 else y) = yoe + era * 400) as Hy.
  { unfold y. destruct (m <=? 2); lia. }
  rewrite Hy.
  split.
  - quot_lia.
  - unfold validDate.
    assert (1 <= d <= daysInMonth y m) as Hdim.
    { unfold daysInMonth.
      destruct (isLeap_cases y) as [(-> & HL) | (-> & HL)].
      all: assert (y = yoe + era * 400 + (if m <=? 2 then 1 else 0)) as Hy'
        by (unfold y; destruct (m <=? 2); lia).
      all: clearbody y d.
      all: split_ifs; bool_hyps.
      all: destruct (m <=? 2) eqn:Em2; bool_hyps.
      all: quot_lia. }
    repeat (apply andb_true_intro; split); apply Z.leb_le; lia.
Qed.

(** Every existing date is the date its day count converts to. *)
Lemma civilFromDays_daysFromCivil (y m d : Z) :
  validDate y m d = true ->
  StdCalendar.civilFromDays (StdCalendar.daysFromCivil y m d) = (y, m, d).
Proof.
  intros Hv. unfold validDate in Hv. bool_hyps.
  unfold StdCalendar.daysFromCivil.
  set (y' := if m <=? 2 then y - 1 else y).
  assert (y = y' + (if m <=? 2 then 1 else 0)) as Hy
    by (unfold y'; destruct (m <=? 2); lia).
  set (era := y' / 400). set (yoe := y' mod 400).
  assert (y' = era * 400 + yoe /\ 0 <= yoe <= 399) as [Hy' Hyoe]
    by (unfold era, yoe; quot_lia).
  set (mp := (m + 9) mod 12).
  assert (0 <= mp <= 11 /\ m = (if mp <? 10 then mp + 3 else mp - 9))
    as [Hmp Hm].
  { unfold mp. destruct ((m + 9) mod 12 <? 10) eqn:E; bool_hyps; quot_lia. }
  set (doy := (153 * mp + 2) / 5 + d - 1).
  assert (0 <= doy <= 365 /\ (5 * doy + 2) / 153 = mp
          /\ (doy = 365 ->
              yoe mod 4 = 3 /\ (yoe mod 100 <> 99 \/ yoe = 399)))
    as (Hdoy & Hmp' & Hleap).
  { unfold daysInMonth in *.
    destruct (isLeap_cases y) as [(HL' & HL) | (HL' & HL)]; rewrite HL' in *.
    all: clearbody mp era yoe y'.
    all: destruct (m <=? 2) eqn:Em2; bool_hyps.
    all: destruct (mp <? 10) eqn:Emp; bool_hyps.
    all: unfold doy; clear doy.
    all: repeat match goal with
         | H : context [if ?c then _ else _] |- _ =>
             destruct c eqn:?; bool_hyps
         end.
    all: try quot_lia. }
  set (doe := yoe * 365 + yoe / 4 - yoe / 100 + doy).
  assert (0 <= doe < 146097) as Hdoe.
  { unfold doe. clearbody doy yoe. quot_lia. }
  assert ((doe - doe / 1460 + doe / 36524 - doe / 146096) / 365 = yoe)
    as Hyoe'.
  { unfold doe. clearbody doy yoe. quot_lia. }
  unfold StdCalendar.civilFromDays.
  replace (era * 146097 + doe - 719468 + 719468)
    with (doe + era * 146097) by lia.
  rewrite Z.div_add, Z.mod_add by lia.
  rewrite (Z.div_small doe), (Z.mod_small doe) by lia.
  rewrite Hyoe'.
  replace (doe - (365 * yoe + yoe / 4 - yoe / 100)) with doy
    by (unfold doe; lia).
  rewrite Hmp'. rewrite <- Hm.
  replace (doy - (153 * mp + 2) / 5 + 1) with d by (unfold doy; lia).
  replace (yoe + (0 + era) * 400) with y' by lia.
  rewrite Hy. destruct (m <=? 2); f_equal; f_equal; lia.
Qed.

Lemma daysFromCivil_day (y m d : Z) :
  StdCalendar.daysFromCivil y m 1 + (d - 1) = StdCalendar.daysFromCivil y m d.
Proof. unfold StdCalendar.daysFromCivil. lia. Qed.

Lemma norm_small (hi lo base : Z) :
  0 <= lo < base -> StdCalendar.norm hi lo base = (hi, lo).
Proof.
  intros Hlo. unfold StdCalendar.norm.
  rewrite Z.div_small, Z.mod_small by lia. f_equal. lia.
Qed.

(** ** Conversion to a standard calendar time *)

Section GoTimeAny.

Context {Time Location : Type} `{Calendar Time Location}.

Lemma GoTime_spec (t : mysqlTime) (loc : Location) :
  let tm := Date (Year t) (Month t) (Day t) (Hour t) (Minute t) (Second t)
                 (Microsecond t [*] 1000) loc in
  let same := reextract tm = (Year t, Month t, Day t,
                              Hour t, Minute t, Second t, Microsecond t) in
  fst (GoTime t loc) = tm /\
  (snd (GoTime t loc) = Some ErrInvalidTimeFormat <-> ~ same) /\
  (snd (GoTime t loc) = None <-> same).
Proof.
  intros tm same. subst same. unfold GoTime. fold tm.
  destruct (reextract tm) as [[[[[[y mo] d] h] mi] s] us].
  repeat match goal with
  | |- context [?a =? ?b] => destruct (Z.eqb_spec a b); cbn [negb orb]
  end; cbn [fst snd].
  1: subst.
  all: split; [reflexivity|]; split; split; intros E; try discriminate E;
    try congruence; try (exfalso; apply E; reflexivity).
Qed.

(** A calendar has no month 0 and no day 0, so a value with a zero
    month or day never converts. *)
Lemma GoTime_zero_month_or_day (t : mysqlTime) (loc : Location) :
  (forall tm, let '(_, m, d) := TimeDate tm in 1 <= m /\ 1 <= d) ->
  month t = 0 \/ day t = 0 ->
  snd (GoTime t loc) = Some ErrInvalidTimeFormat.
Proof.
  intros Hcal Hz. apply GoTime_spec. intros Hsame.
  unfold reextract in Hsame.
  match type of Hsame with
  | context [TimeDate ?tm] =>
      specialize (Hcal tm); destruct (TimeDate tm) as [[y m] d]
  end.
  destruct (TimeClock _) as [[h mi] s].
  injection Hsame as -> -> -> _ _ _ _. cbn in Hcal. lia.
Qed.

End GoTimeAny.

(** On the standard calendar, in any fixed zone, [GoTime] succeeds
    exactly on the values that are real calendar date-times. *)
Lemma GoTime_std_valid (t : mysqlTime) (loc : StdCalendar.Location) :
  wfTime t = true ->
  snd (GoTime t loc) = None <-> civilTime t = true.
Proof.
  intros Hw. apply wfTime_bounds in Hw.
  destruct Hw as (Hy & Hmo & Hd & Hh & Hmi & Hs & Hus).
  rewrite (proj2 (proj2 (GoTime_spec t loc))). cbv zeta.
  unfold reextract.
  cbn [Date TimeDate TimeClock TimeNanosecond StdCalendar.calendar].
  go_unfold. rewrite (int_id (Microsecond t * 1000)) by lia.
  split.
  - unfold StdCalendar.TimeDate, StdCalendar.TimeClock,
      StdCalendar.TimeNanosecond.
    set (tm := StdCalendar.Date _ _ _ _ _ _ _ _).
    pose proof (daysFromCivil_civilFromDays (StdCalendar.wall tm / 86400))
      as Hrt.
    destruct (StdCalendar.civilFromDays _) as [[y m] d].
    destruct Hrt as [_ Hv].
    pose proof (Z.mod_pos_bound (StdCalendar.wall tm) 86400 ltac:(lia))
      as Hsod.
    generalize dependent (StdCalendar.wall tm mod 86400). intros sod Hsod.
    assert (0 <= StdCalendar.nano tm < 1000000000) as Hn.
    { unfold tm, StdCalendar.Date, StdCalendar.norm. cbv beta iota.
      cbn [StdCalendar.nano]. apply Z.mod_pos_bound. lia. }
    generalize dependent (StdCalendar.nano tm). intros n Hn.
    rewrite int_id by quot_lia.
    intros E. injection E as Ey Em Ed Eh Emi Es Eus.
    subst y m d. unfold civilTime.
    cbn [Year Month Day Hour Minute Second Microsecond
         mysqlTime_TimeInternal] in *.
    rewrite Hv. cbn [andb].
    repeat (apply andb_true_intro; split);
      first [apply Z.leb_le | apply Z.ltb_lt]; quot_lia.
  - intros Hv. apply civilTime_bounds in Hv.
    destruct Hv as (Hv & HM & HD & Hh' & Hmi' & Hs' & Hus').
    unfold StdCalendar.Date.
    rewrite (norm_small _ (Month t - 1) 12) by lia.
    rewrite (norm_small _ (Microsecond t * 1000) 1000000000) by lia.
    rewrite (norm_small _ (Second t) 60) by lia.
    rewrite (norm_small _ (Minute t) 60) by lia.
    rewrite (norm_small _ (Hour t) 24) by lia.
    replace (Month t - 1 + 1) with (Month t) by lia.
    rewrite daysFromCivil_day.
    unfold StdCalendar.TimeDate, StdCalendar.TimeClock,
      StdCalendar.TimeNanosecond, StdCalendar.wall.
    cbn [StdCalendar.unix StdCalendar.zone StdCalendar.nano].
    set (days := StdCalendar.daysFromCivil _ _ _).
    pose proof (civilFromDays_daysFromCivil _ _ _ Hv) as Hrt.
    fold days in Hrt.
    replace (days * 86400 + Hour t * 3600 + Minute t * 60 + Second t
             - loc + loc)
      with (Hour t * 3600 + Minute t * 60 + Second t + days * 86400) by lia.
    rewrite Z.div_add, Z.mod_add by lia.
    rewrite (Z.div_small (Hour t * 3600 + Minute t * 60 + Second t)),
            (Z.mod_small (Hour t * 3600 + Minute t * 60 + Second t)) by lia.
    cbn [Z.add]. rewrite Hrt.
    rewrite int_id by quot_lia.
    repeat f_equal; quot_lia.
Qed.

(** The constructor converts every argument to the width of its field. *)
Lemma wfTime_newMysqlTime (y mo d h mi s us : Z) :
  wfTime (newMysqlTime y mo d h mi s us) = true.
Proof.
  unfold wfTime, newMysqlTime, Go.uint16, Go.uint8, Go.uint32.
  cbn [Year Month Day Hour Minute Second Microsecond
       mysqlTime_TimeInternal year month day hour minute second microsecond].
  repeat (apply andb_true_intro; split);
    first [apply Z.leb_le | apply Z.ltb_lt];
    apply Z.mod_pos_bound; lia.
Qed.

(** The fields that [GoTime] compares, accessor by accessor. *)
Section GoTimeFields.
Context {Time Location : Type} `{Calendar Time Location}.

Lemma reextract_fields (tm : Time) (y mo d h mi s us : Z) :
  reextract tm = (y, mo, d, h, mi, s, us) <->
  TimeDate tm = (y, mo, d) /\ TimeClock tm = (h, mi, s) /\
  TimeNanosecond tm [/] 1000 = us.
Proof.
  unfold reextract.
  destruct (TimeDate tm) as [[y' mo'] d'].
  destruct (TimeClock tm) as [[h' mi'] s'].
  split.
  - intros E. injection E as -> -> -> -> -> -> ->. repeat split.
  - intros (E1 & E2 & E3). injection E1 as -> -> ->.
    injection E2 as -> -> ->. subst us. reflexivity.
Qed.

Lemma GoTime_fields (t : mysqlTime) (loc : Location) :
  let tm := Date (Year t) (Month t) (Day t) (Hour t) (Minute t) (Second t)
                 (Microsecond t [*] 1000) loc in
  let same :=
    TimeDate tm = (Year t, Month t, Day t) /\
    TimeClock tm = (Hour t, Minute t, Second t) /\
    TimeNanosecond tm [/] 1000 = Microsecond t in
  fst (GoTime t loc) = tm /\
  (snd (GoTime t loc) = Some ErrInvalidTimeFormat <-> ~ same) /\
  (snd (GoTime t loc) = None <-> same).
Proof.
  cbv zeta. destruct (GoTime_spec t loc) as (Hf & Hn & Hs).
  cbv zeta in Hn, Hs. rewrite reextract_fields in Hn, Hs.
  split; [exact Hf|]. split; assumption.
Qed.
End GoTimeFields.

(** On the standard calendar [GoTime] fails exactly on the values that
    are not real calendar date-times. *)
Lemma GoTime_std_invalid (t : mysqlTime) (loc : StdCalendar.Location) :
  wfTime t = true ->
  snd (GoTime t loc) = Some ErrInvalidTimeFormat <-> civilTime t = false.
Proof.
  intros Hw. pose proof (GoTime_std_valid t loc Hw) as Hv.
  destruct (snd (GoTime t loc)) as [[]|]; destruct (civilTime t);
    split; intros E; try reflexivity; try discriminate E.
  - destruct Hv as [_ Hv]. specialize (Hv eq_refl). discriminate Hv.
  - destruct Hv as [Hv _]. specialize (Hv eq_refl). discriminate Hv.
Qed.

(** ** Week modes *)

Lemma land7_mod8 (mode : Z) : Z.land mode 7 = mode mod 8.
Proof. change 7 with (Z.ones 3). rewrite Z.land_ones by lia. reflexivity. Qed.

Lemma testbit_low3 (mode i : Z) :
  0 <= i < 3 -> Z.testbit mode i = Z.testbit (mode mod 8) i.
Proof.
  intros Hi. change 8 with (2 ^ 3). symmetry.
  apply Z.mod_pow2_bits_low. lia.
Qed.

(** The guard of [Week] decides the result: the week computation itself
    does not return 0 on a date whose day is 0. *)
Remark calcWeek_zero_day_nonzero :
  snd (calcWeek (newMysqlTime 2000 3 0 0 0 0 0) (weekMode 0)) = 9.
Proof. vm_compute. reflexivity. Qed.

(** ** Reference values

    Results that the MySQL manual documents for the functions this
    code ports. *)

Example Week_2008_02_20 :
  Week (newMysqlTime 2008 2 20 0 0 0 0) 0 = 7 /\
  Week (newMysqlTime 2008 2 20 0 0 0 0) 1 = 8 /\
  Week (newMysqlTime 2008 12 31 0 0 0 0) 1 = 53.
Proof. vm_compute. repeat split. Qed.

Example YearWeek_1987_01_01 :
  YearWeek (newMysqlTime 1987 1 1 0 0 0 0) 0 = (1986, 52).
Proof. vm_compute. reflexivity. Qed.

Example timestampDiff_reference :
  timestampDiff intervalMONTH (newMysqlTime 2003 2 1 0 0 0 0)
                (newMysqlTime 2003 5 1 0 0 0 0) = 3 /\
  timestampDiff intervalYEAR (newMysqlTime 2002 5 1 0 0 0 0)
                (newMysqlTime 2001 1 1 0 0 0 0) = -1 /\
  timestampDiff intervalMINUTE (newMysqlTime 2003 2 1 0 0 0 0)
                (newMysqlTime 2003 5 1 12 5 55 0) = 128885.
Proof. vm_compute. repeat split. Qed.

Example calcDaysInYear_reference :
  calcDaysInYear 2000 = 366 /\ calcDaysInYear 1900 = 365 /\
  calcDaysInYear 2004 = 366 /\ calcDaysInYear 2001 = 365.
Proof. vm_compute. repeat split. Qed.

Example datetimeToUint64_reference :
  datetimeToUint64 (newMysqlTime 2003 5 1 12 5 55 0) = 20030501120555.
Proof. vm_compute. reflexivity. Qed.

(** * The stated properties *)

(** C1 (as stated, refuted).  For 2000-01-01 the claim expects
    [YearWeek] to return year 2000, week 1 in mode 1; the code returns
    year 1999, week 52. *)
Lemma YearWeek_2000_01_01_mode1_counterexample :
  ~ (YearWeek date20000101 0 = (1999, 52) /\
     YearWeek date20000101 1 = (2000, 1)).
Proof. intros [_ H]. vm_compute in H. discriminate H. Qed.

(** C1 (amended).  For the date 2000-01-01, [YearWeek] returns year 1999
    and week 52 with mode 0, and also year 1999 and week 52 with mode 1:
    the Saturday belongs to the last week of the previous year under both
    conventions. *)
Theorem YearWeek_2000_01_01 :
  YearWeek date20000101 0 = (1999, 52) /\
  YearWeek date20000101 1 = (1999, 52).
Proof. split; vm_compute; reflexivity. Qed.

(** C2 (as stated, refuted).  Swapping the arguments and flipping [sign]
    to -1 adds the two values instead of subtracting them: for 2000-01-01
    and 2000-01-02 the seconds differ. *)
Lemma calcTimeDiff_swap_flip_counterexample :
  ~ (let '(s, us, n) := calcTimeDiff date20000102 date20000101 (-1) in
     let '(s', us', n') := calcTimeDiff date20000101 date20000102 1 in
     s = s' /\ us = us' /\ n = negb n').
Proof. vm_compute. intros [E _]. discriminate E. Qed.

(** C2 (amended).  For every pair of time values whose fields fit their
    types, swapping [t1] and [t2] while keeping [sign] at +1 yields the
    same seconds and microseconds; the [neg] flag is inverted when the
    difference is not zero and is false both ways when it is zero. *)
Theorem calcTimeDiff_antisymmetric {T1 T2 : Type}
    `{TimeInternal T1} `{TimeInternal T2} (t1 : T1) (t2 : T2) :
  wfTime t1 = true -> wfTime t2 = true ->
  let '(s, us, n) := calcTimeDiff t2 t1 1 in
  let '(s', us', n') := calcTimeDiff t1 t2 1 in
  s = s' /\ us = us' /\
  (if (s' =? 0) && (us' =? 0) then n = false /\ n' = false else n = negb n').
Proof.
  intros Hw1 Hw2.
  rewrite (calcTimeDiff_micros t2 t1 1 Hw2 Hw1 (or_introl eq_refl)).
  rewrite (calcTimeDiff_micros t1 t2 1 Hw1 Hw2 (or_introl eq_refl)).
  cbv zeta.
  replace (micros t2 - 1 * micros t1)
    with (- (micros t1 - 1 * micros t2)) by lia.
  generalize (micros t1 - 1 * micros t2). intros d.
  rewrite Z.abs_opp.
  split; [reflexivity|]. split; [reflexivity|].
  destruct ((Z.abs d ÷ 1000000 =? 0) && (Z.rem (Z.abs d) 1000000 =? 0)) eqn:E.
  - bool_hyps. assert (d = 0) as -> by quot_lia. split; reflexivity.
  - assert (d <> 0) as Hd.
    { intros ->. vm_compute in E. discriminate E. }
    destruct (d <? 0) eqn:E1, (- d <? 0) eqn:E2; bool_hyps; try lia;
      reflexivity.
Qed.

Lemma calcTimeDiff_antisymmetric_witness :
  wfTime date20000101 = true /\ wfTime date20000102 = true /\
  (let '(s, us, n) := calcTimeDiff date20000102 date20000101 1 in
   let '(s', us', n') := calcTimeDiff date20000101 date20000102 1 in
   s = s' /\ us = us' /\
   (if (s' =? 0) && (us' =? 0) then n = false /\ n' = false else n = negb n')).
Proof.
  split; [reflexivity|]. split; [reflexivity|].
  apply (calcTimeDiff_antisymmetric date20000101 date20000102); reflexivity.
Defined.

(** C3.  For every integer mode, [weekMode] keeps the low three bits of
    the mode as the flags MondayFirst, Year and FirstWeekday, and toggles
    the FirstWeekday bit exactly when the MondayFirst bit is unset.  Mode
    0 gives MondayFirst unset and FirstWeekday on; mode 1 gives
    MondayFirst set and FirstWeekday off. *)
Theorem weekMode_flags (mode : Z) :
  weekMode mode =
    (if Z.testbit mode 0 then Z.land mode 7
     else Z.lxor (Z.land mode 7) weekBehaviourFirstWeekday) /\
  test (weekMode mode) weekBehaviourMondayFirst = Z.testbit mode 0 /\
  test (weekMode mode) weekBehaviourYear = Z.testbit mode 1 /\
  test (weekMode mode) weekBehaviourFirstWeekday =
    xorb (Z.testbit mode 2) (negb (Z.testbit mode 0)) /\
  0 <= weekMode mode < 8 /\
  (test (weekMode 0) weekBehaviourMondayFirst = false /\
   test (weekMode 0) weekBehaviourFirstWeekday = true) /\
  (test (weekMode 1) weekBehaviourMondayFirst = true /\
   test (weekMode 1) weekBehaviourFirstWeekday = false).
Proof.
  rewrite (testbit_low3 mode 0), (testbit_low3 mode 1), (testbit_low3 mode 2)
    by lia.
  unfold weekMode. rewrite land7_mod8.
  pose proof (Z.mod_pos_bound mode 8 ltac:(lia)) as Hr.
  generalize dependent (mode mod 8). intros r Hr.
  assert (r = 0 \/ r = 1 \/ r = 2 \/ r = 3 \/ r = 4 \/ r = 5 \/ r = 6 \/ r = 7)
    as Hc by lia.
  destruct Hc as [->|[->|[->|[->|[->|[->|[->| ->]]]]]]];
    vm_compute; intuition discriminate.
Qed.

(** C4.  [GoTime] always returns the time built by the standard
    calendar, and it fails with [ErrInvalidTimeFormat] if and only if
    some field read back from that time differs from the input: the
    year, month and day of its date, the hour, minute and second of its
    clock, or its nanoseconds divided by 1000; this holds for any
    implementation of the calendar.  On the standard calendar, in any
    fixed zone, the conversion of a value succeeds exactly when the
    value is a real calendar date-time.  Year 2006 month 12 day 0 fails,
    handing back the normalized 2006-11-30, while year 2024 month 2 day
    29 succeeds, at midnight and at 12:34:56.789012; second 60, minute
    60, hour 24 and microsecond 1000000 fail, each handing back the
    normalized time. *)
Theorem GoTime_invalid_iff_mismatch :
  (forall (Time Location : Type) (cal : Calendar Time Location)
          (t : mysqlTime) (loc : Location),
      let tm := Date (Year t) (Month t) (Day t) (Hour t) (Minute t) (Second t)
                     (Microsecond t [*] 1000) loc in
      let same :=
        TimeDate tm = (Year t, Month t, Day t) /\
        TimeClock tm = (Hour t, Minute t, Second t) /\
        TimeNanosecond tm [/] 1000 = Microsecond t in
      fst (GoTime t loc) = tm /\
      (snd (GoTime t loc) = Some ErrInvalidTimeFormat <-> ~ same) /\
      (snd (GoTime t loc) = None <-> same)) /\
  (forall (y mo d h mi s us : Z) (loc : StdCalendar.Location),
      let t := newMysqlTime y mo d h mi s us in
      (snd (GoTime t loc) = None <-> civilTime t = true) /\
      (snd (GoTime t loc) = Some ErrInvalidTimeFormat
       <-> civilTime t = false)) /\
  (forall loc : StdCalendar.Location,
      GoTime (newMysqlTime 2006 12 0 0 0 0 0) loc =
        (StdCalendar.Date 2006 11 30 0 0 0 0 loc,
         Some ErrInvalidTimeFormat) /\
      GoTime (newMysqlTime 2024 2 29 0 0 0 0) loc =
        (StdCalendar.Date 2024 2 29 0 0 0 0 loc, None) /\
      GoTime (newMysqlTime 2024 2 29 12 34 56 789012) loc =
        (StdCalendar.Date 2024 2 29 12 34 56 789012000 loc, None) /\
      GoTime (newMysqlTime 2024 2 29 12 34 60 0) loc =
        (StdCalendar.Date 2024 2 29 12 35 0 0 loc,
         Some ErrInvalidTimeFormat) /\
      GoTime (newMysqlTime 2024 2 29 12 60 0 0) loc =
        (StdCalendar.Date 2024 2 29 13 0 0 0 loc,
         Some ErrInvalidTimeFormat) /\
      GoTime (newMysqlTime 2024 2 29 24 0 0 0) loc =
        (StdCalendar.Date 2024 3 1 0 0 0 0 loc,
         Some ErrInvalidTimeFormat) /\
      GoTime (newMysqlTime 2024 2 29 12 34 56 1000000) loc =
        (StdCalendar.Date 2024 2 29 12 34 57 0 loc,
         Some ErrInvalidTimeFormat)).
Proof.
  split; [|split].
  - intros Time Location cal t loc. apply GoTime_fields.
  - intros y mo d h mi s us loc t.
    pose proof (wfTime_newMysqlTime y mo d h mi s us) as Hw. fold t in Hw.
    split; [exact (GoTime_std_valid t loc Hw)|exact (GoTime_std_invalid t loc Hw)].
  - intros loc.
    assert (forall t tm e,
              wfTime t = true ->
              StdCalendar.Date (Year t) (Month t) (Day t) (Hour t) (Minute t)
                (Second t) (Microsecond t [*] 1000) loc = tm ->
              (if civilTime t then None else Some ErrInvalidTimeFormat) = e ->
              GoTime t loc = (tm, e)) as Hgo.
    { intros t tm e Hw Htm He.
      pose proof (GoTime_std_valid t loc Hw) as Hv.
      pose proof (GoTime_std_invalid t loc Hw) as Hi.
      pose proof (GoTime_spec t loc) as [Hf _].
      cbn [Date StdCalendar.calendar] in Hf. rewrite Htm in Hf.
      destruct (GoTime t loc) as [tm' e']. cbn [fst snd] in *. subst tm'.
      f_equal. subst e. destruct (civilTime t).
      - apply Hv. reflexivity.
      - apply Hi. reflexivity. }
    repeat split; apply Hgo; try reflexivity.
    all: unfold StdCalendar.Date, StdCalendar.norm; cbv beta iota zeta;
      f_equal; vm_compute; reflexivity.
Qed.

(** C5 (as stated, refuted).  With the zero month and day sentinels the
    day number of 2001-00-00 lies before that of 2000-11-30, so the
    difference is flagged negative although the fields of [t2] are later,
    and the month count wraps around to a positive result. *)
Lemma timestampDiff_sign_zero_month_counterexample :
  In intervalMONTH supportedIntervals /\
  wfTime time20001130 = true /\ wfTime time20010000 = true /\
  earlier time20001130 time20010000 /\
  micros time20010000 < micros time20001130 /\
  snd (calcTimeDiff time20010000 time20001130 1) = true /\
  timestampDiff intervalMONTH time20001130 time20010000 = 1 /\
  ~ signConvention intervalMONTH time20001130 time20010000.
Proof.
  split; [cbn; tauto|].
  repeat (split; [reflexivity|]).
  intros [[_ Hn] _].
  assert (notLater time20001130 time20010000) as Hl
    by (vm_compute; discriminate).
  specialize (Hn Hl). vm_compute in Hn. discriminate Hn.
Qed.

(** C5 (amended).  For every supported unit and all time values [t1],
    [t2] that are real calendar date-times (year from 1, an existing day
    of an existing month, a wall-clock time of day): [timestampDiff]
    calls [calcTimeDiff t2 t1 1], whose flag is clear exactly when [t2]
    is not earlier than [t1]; the result is at least 0 when [t2] is not
    earlier, at most 0 when [t1] is later, positive only when [t2] is
    later and negative only when [t1] is later. *)
Theorem timestampDiff_sign_valid {T1 T2 : Type}
    `{TimeInternal T1} `{TimeInternal T2} (u : string) (t1 : T1) (t2 : T2) :
  In u supportedIntervals ->
  validTime t1 = true -> validTime t2 = true ->
  signConvention u t1 t2.
Proof.
  intros Hu Hv1 Hv2.
  destruct (timestampDiff_magnitude u t1 t2 Hu Hv1 Hv2) as (q & Hq & Hz & Hr).
  unfold signConvention, notLater, earlier.
  rewrite (compareTime_micros t1 t2 Hv1 Hv2).
  rewrite (compareTime_micros t2 t1 Hv2 Hv1).
  rewrite (calcTimeDiff_micros t2 t1 1 (validTime_wfTime t2 Hv2)
             (validTime_wfTime t1 Hv1) (or_introl eq_refl)).
  cbv zeta. cbn [snd].
  replace (micros t2 - 1 * micros t1) with (micros t2 - micros t1) by lia.
  rewrite Hr. clear Hr.
  rewrite !Z.compare_lt_iff, !Z.compare_gt_iff.
  destruct (micros t2 - micros t1 <? 0) eqn:E; bool_hyps.
  - split; [split; [discriminate | intros Hc; exfalso; lia]|].
    repeat split; lia.
  - split; [split; [lia | reflexivity]|]. repeat split; lia.
Qed.

Lemma timestampDiff_sign_valid_witness :
  In intervalMONTH supportedIntervals /\
  validTime time20000315 = true /\ validTime time20001130 = true /\
  signConvention intervalMONTH time20000315 time20001130.
Proof.
  assert (In intervalMONTH supportedIntervals) as Hu by (cbn; tauto).
  split; [exact Hu|]. split; [reflexivity|]. split; [reflexivity|].
  apply timestampDiff_sign_valid; [exact Hu | reflexivity | reflexivity].
Defined.

(** C6 (as stated, refuted).  The hour is stored in a [uint8]: 921600
    seconds are 256 hours, and the stored hour is 0. *)
Lemma calcTimeFromSec_hour_counterexample :
  hour (calcTimeFromSec date20000101 921600 0) <> 921600 / 3600.
Proof. vm_compute. discriminate. Qed.

(** C6 (amended).  For every non-negative total seconds and microseconds,
    [calcTimeFromSec] sets hour = (seconds/3600) mod 256, minute =
    (seconds mod 3600)/60, second = seconds mod 60 and microsecond =
    microseconds mod 2^32, and leaves the date fields alone.  So the hour
    is seconds/3600 below 256 hours, where it may exceed the wall-clock
    range, and the microseconds are unchanged below 2^32. *)
Theorem calcTimeFromSec_fields (to : mysqlTime) (seconds microseconds : Z) :
  0 <= seconds <= 2 ^ 63 - 1 -> 0 <= microseconds <= 2 ^ 63 - 1 ->
  let r := calcTimeFromSec to seconds microseconds in
  hour r = (seconds / 3600) mod 2 ^ 8 /\
  minute r = (seconds mod 3600) / 60 /\
  second r = seconds mod 60 /\
  microsecond r = microseconds mod 2 ^ 32 /\
  (seconds < 256 * 3600 -> hour r = seconds / 3600) /\
  (microseconds < 2 ^ 32 -> microsecond r = microseconds) /\
  year r = year to /\ month r = month to /\ day r = day to.
Proof.
  intros Hs Hu. unfold calcTimeFromSec.
  cbn [hour minute second microsecond year month day].
  go_unfold. unfold Go.uint8, Go.uint32. strip_int.
  repeat rewrite ?Z.quot_div_nonneg, ?Z.rem_mod_nonneg by quot_lia.
  assert ((seconds mod 3600) mod 60 = seconds mod 60) as E60 by quot_lia.
  rewrite E60.
  repeat split.
  - apply Z.mod_small. quot_lia.
  - apply Z.mod_small. quot_lia.
  - intros Hlt. apply Z.mod_small. quot_lia.
  - intros Hlt. apply Z.mod_small. lia.
Qed.

Lemma calcTimeFromSec_fields_witness :
  0 <= 921600 <= 2 ^ 63 - 1 /\ 0 <= 7 <= 2 ^ 63 - 1 /\
  hour (calcTimeFromSec date20000101 921600 7) = (921600 / 3600) mod 2 ^ 8.
Proof.
  split; [lia|]. split; [lia|].
  apply (calcTimeFromSec_fields date20000101 921600 7); lia.
Defined.

(** C7.  For every day value, [calcDaynr 0 0 day] is 0: the day number
    is 0 whenever year and month are both 0, whatever the day. *)
Theorem calcDaynr_zero_year_month (day : Z) : calcDaynr 0 0 day = 0.
Proof. reflexivity. Qed.

(** C8.  [calcDaynr] is strictly increasing across consecutive real
    calendar dates: for every valid date from year 1 on, the day number
    of the next calendar day is one more than, hence strictly greater
    than, the day number of the day itself; in particular 2000-02-28,
    2000-02-29 and 2000-03-01 have increasing day numbers. *)
Theorem calcDaynr_next_day (y m d : Z) :
  1 <= y < 10 ^ 16 -> validDate y m d = true ->
  (let '(y', m', d') := nextDate y m d in
   calcDaynr y' m' d' = calcDaynr y m d + 1 /\
   calcDaynr y m d < calcDaynr y' m' d') /\
  calcDaynr 2000 2 28 < calcDaynr 2000 2 29 < calcDaynr 2000 3 1.
Proof.
  intros Hy Hv. split; [|vm_compute; split; reflexivity].
  pose proof (daynr_nextDate y m d (proj1 Hy) Hv) as Hn.
  pose proof (validDate_bounds y m d Hv) as Hb.
  unfold nextDate in *.
  destruct (d <? daysInMonth y m); [|destruct (m <? 12)];
    rewrite !calcDaynr_daynr by lia; lia.
Qed.

Lemma calcDaynr_next_day_witness :
  1 <= 2000 < 10 ^ 16 /\ validDate 2000 2 29 = true /\
  calcDaynr 2000 3 1 = calcDaynr 2000 2 29 + 1.
Proof.
  split; [lia|]. split; [reflexivity|].
  apply (calcDaynr_next_day 2000 2 29); [lia | reflexivity].
Defined.

(** C9.  For every mode, [Week] on a time value whose month field is 0
    or whose day field is 0 returns 0; the guard answers before the week
    computation is reached. *)
Theorem Week_zero_month_or_day (t : mysqlTime) (mode : Z) :
  month t = 0 \/ day t = 0 -> Week t mode = 0.
Proof.
  intros Hz. unfold Week.
  destruct Hz as [-> | ->]; [|rewrite orb_true_r]; reflexivity.
Qed.

Lemma Week_zero_month_or_day_witness :
  day (newMysqlTime 2000 3 0 0 0 0 0) = 0 /\
  Week (newMysqlTime 2000 3 0 0 0 0 0) 0 = 0.
Proof.
  split; [reflexivity|].
  apply Week_zero_month_or_day. right. reflexivity.
Defined.

(** C10.  For every pair of time values and every interval type that is
    not one of the nine supported unit names, [timestampDiff] returns
    0. *)
Theorem timestampDiff_unsupported {T1 T2 : Type}
    `{TimeInternal T1} `{TimeInternal T2}
    (intervalType : string) (t1 : T1) (t2 : T2) :
  ~ In intervalType supportedIntervals ->
  timestampDiff intervalType t1 t2 = 0.
Proof.
  intros Hu. unfold timestampDiff.
  destruct (calcTimeDiff t2 t1 1) as [[seconds microseconds] neg].
  unfold supportedIntervals in Hu. cbn [In] in Hu.
  repeat match goal with
  | |- context [String.eqb intervalType ?s] =>
      destruct (String.eqb_spec intervalType s) as [-> | _];
      [exfalso; apply Hu; tauto|]
  end.
  reflexivity.
Qed.

Lemma timestampDiff_unsupported_witness :
  ~ In "FORTNIGHT"%string supportedIntervals /\
  timestampDiff "FORTNIGHT" date20000101 date20000102 = 0.
Proof.
  assert (~ In "FORTNIGHT"%string supportedIntervals) as Hu.
  { unfold supportedIntervals. cbn [In].
    intros [E|[E|[E|[E|[E|[E|[E|[E|[E|[]]]]]]]]]]; discriminate E. }
  split; [exact Hu|].
  apply timestampDiff_unsupported. exact Hu.
Defined.

(** * Further properties of the code *)

(** ** Day numbers, year lengths and the day of the year *)

Lemma calcDaysInYear_cases (y : Z) :
  calcDaysInYear y = 365 \/ calcDaysInYear y = 366.
Proof. unfold calcDaysInYear. destruct (_ && _); auto. Qed.

Lemma daynr_first_day (y : Z) :
  1 <= y < 2 ^ 16 -> 366 <= daynr y 1 1 <= 24000000.
Proof.
  intros Hy. rewrite daynr_unfold by lia. unfold leapDays.
  cbn [Z.leb Z.compare Pos.compare Pos.compare_cont]. quot_lia.
Qed.

Lemma daynr_after_january (y m d : Z) :
  1 <= y -> validDate y m d = true ->
  (m = 1 /\ daynr y m d - daynr y 1 1 = d - 1) \/
  (2 <= m /\ 31 <= daynr y m d - daynr y 1 1).
Proof.
  intros Hy Hv. pose proof (validDate_bounds y m d Hv) as Hb.
  assert (m = 1 \/ 2 <= m) as [-> | Hm] by lia.
  - left. split; [reflexivity|]. rewrite !daynr_unfold by lia. lia.
  - right. split; [assumption|].
    assert (validDate y 1 31 = true) as Hv1 by reflexivity.
    pose proof (daynr_month_lt y 1 31 m d Hy Hv1 Hv ltac:(lia)).
    rewrite (daynr_unfold y 1 1), (daynr_unfold y 1 31) in * by lia. lia.
Qed.

Lemma calcDaynr_year_step (y : Z) :
  0 <= y < 10 ^ 16 ->
  calcDaynr (y + 1) 1 1 = calcDaynr y 1 1 + calcDaysInYear y.
Proof.
  intros Hy. rewrite !calcDaynr_daynr by lia.
  assert (y = 0 \/ 1 <= y) as [-> | Hy1] by lia; [reflexivity|].
  rewrite calcDaysInYear_isLeap by lia.
  rewrite daynr_year_start by lia. destruct (isLeap y); lia.
Qed.

Lemma nextDate_valid (y m d : Z) :
  validDate y m d = true ->
  let '(y', m', d') := nextDate y m d in
  validDate y' m' d' = true /\ (y' = y \/ y' = y + 1).
Proof.
  intros Hv. pose proof (validDate_bounds y m d Hv) as Hb.
  unfold nextDate. unfold validDate in *. bool_hyps.
  destruct (d <? daysInMonth y m) eqn:Ed; [|destruct (m <? 12) eqn:Em];
    bool_hyps.
  - split; [|lia].
    repeat (apply andb_true_intro; split); apply Z.leb_le; lia.
  - split; [|lia].
    assert (1 <= daysInMonth y (m + 1)).
    { unfold daysInMonth. destruct (m + 1 =? 2); [destruct (isLeap y); lia|].
      destruct (_ || _); lia. }
    repeat (apply andb_true_intro; split); apply Z.leb_le; lia.
  - split; [reflexivity | lia].
Qed.

Lemma YearDay_daynr (t : mysqlTime) :
  1 <= year t < 2 ^ 16 ->
  validDate (year t) (month t) (day t) = true ->
  YearDay t = daynr (year t) (month t) (day t) - daynr (year t) 1 1 + 1.
Proof.
  intros Hy Hv.
  pose proof (validDate_bounds _ _ _ Hv) as Hb.
  pose proof (daynr_yearday _ _ _ (proj1 Hy) Hv) as Hyd.
  pose proof (daynr_first_day _ Hy) as Hfirst.
  assert (0 <= daynr (year t) (month t) (day t) - daynr (year t) 1 1 <= 365)
    as Hyd' by (destruct (isLeap (year t)); lia).
  unfold YearDay.
  replace (month t =? 0) with false by (symmetry; apply Z.eqb_neq; lia).
  replace (day t =? 0) with false by (symmetry; apply Z.eqb_neq; lia).
  cbn [orb]. rewrite !calcDaynr_daynr by lia. go_unfold. strip_int.
  reflexivity.
Qed.

(** X1.  On real dates from year 1 on, [calcDaynr] orders dates as the
    calendar does: comparing two day numbers gives the same answer as
    comparing (year, month, day) field by field, so different dates
    never share a day number. *)
Theorem calcDaynr_order (y1 m1 d1 y2 m2 d2 : Z) :
  1 <= y1 < 10 ^ 16 -> 1 <= y2 < 10 ^ 16 ->
  validDate y1 m1 d1 = true -> validDate y2 m2 d2 = true ->
  (calcDaynr y1 m1 d1 ?= calcDaynr y2 m2 d2)
  = lexCompare [y1; m1; d1] [y2; m2; d2].
Proof.
  intros Hy1 Hy2 Hv1 Hv2.
  pose proof (validDate_bounds _ _ _ Hv1) as Hb1.
  pose proof (validDate_bounds _ _ _ Hv2) as Hb2.
  rewrite !calcDaynr_daynr by lia.
  pose proof (daynr_lex_lt y1 m1 d1 y2 m2 d2 (proj1 Hy1) (proj1 Hy2) Hv1 Hv2)
    as Hlt.
  pose proof (daynr_lex_lt y2 m2 d2 y1 m1 d1 (proj1 Hy2) (proj1 Hy1) Hv2 Hv1)
    as Hgt.
  cbn [lexCompare].
  destruct (Z.compare_spec y1 y2) as [-> | Hy | Hy];
    [destruct (Z.compare_spec m1 m2) as [-> | Hm | Hm];
       [destruct (Z.compare_spec d1 d2) as [-> | Hd | Hd]|..]|..].
  all: first [apply Z.compare_eq_iff | apply Z.compare_lt_iff
             | apply Z.compare_gt_iff].
  all: lia.
Qed.

Lemma calcDaynr_order_witness :
  1 <= 1999 < 10 ^ 16 /\ 1 <= 2000 < 10 ^ 16 /\
  validDate 1999 12 31 = true /\ validDate 2000 1 1 = true /\
  (calcDaynr 1999 12 31 ?= calcDaynr 2000 1 1)
  = lexCompare [1999; 12; 31] [2000; 1; 1].
Proof.
  split; [lia|]. split; [lia|]. split; [reflexivity|]. split; [reflexivity|].
  apply calcDaynr_order; [lia | lia | reflexivity | reflexivity].
Defined.

(** X2.  For every year from 0 on, [calcDaysInYear] returns 366 exactly
    for the Gregorian leap years other than year 0, and 365 otherwise;
    the rule is right for four-digit years too, not only for 0..99. *)
Theorem calcDaysInYear_gregorian (y : Z) :
  0 <= y ->
  calcDaysInYear y = if isLeap y && negb (y =? 0) then 366 else 365.
Proof.
  intros Hy. unfold calcDaysInYear, isLeap, Go.rem.
  change 3 with (Z.ones 2). rewrite Z.land_ones by lia.
  rewrite !Z.rem_mod_nonneg by lia. change (2 ^ 2) with 4.
  destruct (Z.eqb_spec y 0) as [-> | Hy0]; [reflexivity|].
  destruct (y mod 4 =? 0), (y mod 100 =? 0), (y mod 400 =? 0); reflexivity.
Qed.

Lemma calcDaysInYear_gregorian_witness :
  0 <= 1900 /\
  calcDaysInYear 1900 = if isLeap 1900 && negb (1900 =? 0) then 366 else 365.
Proof. split; [lia|]. apply calcDaysInYear_gregorian. lia. Defined.

(** X3.  [calcDaysInYear] and [calcDaynr] agree on the length of a
    year: from year 0 on, the day number of January 1 of the next year
    is the day number of January 1 plus [calcDaysInYear]. *)
Theorem calcDaynr_year_length (y : Z) :
  0 <= y < 10 ^ 16 ->
  calcDaynr (y + 1) 1 1 = calcDaynr y 1 1 + calcDaysInYear y.
Proof. exact (calcDaynr_year_step y). Qed.

Lemma calcDaynr_year_length_witness :
  0 <= 2000 < 10 ^ 16 /\
  calcDaynr (2000 + 1) 1 1 = calcDaynr 2000 1 1 + calcDaysInYear 2000.
Proof. split; [lia|]. apply calcDaynr_year_length. lia. Defined.

(** X4.  On a real date from year 1 on, [YearDay] lies between 1 and the
    number of days of the year; it is the day of the month in January
    and the number of days of the year on December 31.  So the 0 that the
    guard returns for a zero month or day is never the day of a real
    date. *)
Theorem YearDay_range (t : mysqlTime) :
  1 <= year t < 2 ^ 16 ->
  validDate (year t) (month t) (day t) = true ->
  1 <= YearDay t <= calcDaysInYear (year t) /\
  (month t = 1 -> YearDay t = day t) /\
  (month t = 12 -> day t = 31 -> YearDay t = calcDaysInYear (year t)).
Proof.
  intros Hy Hv.
  pose proof (daynr_yearday _ _ _ (proj1 Hy) Hv) as Hyd.
  pose proof (daynr_after_january _ _ _ (proj1 Hy) Hv) as Hjan.
  pose proof (calcDaysInYear_isLeap (year t) (proj1 Hy)) as HL.
  rewrite (YearDay_daynr t Hy Hv). repeat split.
  - lia.
  - destruct (isLeap (year t)); lia.
  - lia.
  - intros Hm Hd. rewrite Hm, Hd in *.
    rewrite (daynr_unfold _ 12 31), (daynr_unfold _ 1 1) by lia.
    cbn [Z.leb Z.compare Pos.compare Pos.compare_cont].
    pose proof (leapDays_step (year t) (proj1 Hy)).
    destruct (isLeap (year t)); quot_lia.
Qed.

Lemma YearDay_range_witness :
  1 <= year date20000101 < 2 ^ 16 /\
  validDate (year date20000101) (month date20000101) (day date20000101)
  = true /\
  1 <= YearDay date20000101 <= calcDaysInYear (year date20000101).
Proof.
  split; [vm_compute; split; [discriminate | reflexivity]|].
  split; [reflexivity|].
  apply (YearDay_range date20000101);
    [vm_compute; split; [discriminate | reflexivity] | reflexivity].
Defined.

(** X5.  Within a year [YearDay] counts the days one by one: when the
    day after a real date lies in the same year, its [YearDay] is one
    more. *)
Theorem YearDay_next_day (t t' : mysqlTime) :
  1 <= year t < 2 ^ 16 ->
  validDate (year t) (month t) (day t) = true ->
  (year t', month t', day t') = nextDate (year t) (month t) (day t) ->
  year t' = year t ->
  YearDay t' = YearDay t + 1.
Proof.
  intros Hy Hv Hn Hsame.
  pose proof (nextDate_valid _ _ _ Hv) as Hv'.
  pose proof (daynr_nextDate _ _ _ (proj1 Hy) Hv) as Hd.
  rewrite <- Hn in Hv', Hd. cbv beta iota zeta in Hv'.
  destruct Hv' as [Hv' _].
  rewrite (YearDay_daynr t Hy Hv).
  rewrite (YearDay_daynr t') by first [assumption | rewrite Hsame; assumption].
  rewrite Hd, Hsame. lia.
Qed.

Lemma YearDay_next_day_witness :
  1 <= year date20000101 < 2 ^ 16 /\
  validDate (year date20000101) (month date20000101) (day date20000101)
  = true /\
  (year date20000102, month date20000102, day date20000102)
  = nextDate (year date20000101) (month date20000101) (day date20000101) /\
  year date20000102 = year date20000101 /\
  YearDay date20000102 = YearDay date20000101 + 1.
Proof.
  split; [vm_compute; split; [discriminate | reflexivity]|].
  split; [reflexivity|]. split; [reflexivity|]. split; [reflexivity|].
  apply (YearDay_next_day date20000101 date20000102);
    [vm_compute; split; [discriminate | reflexivity]
    | reflexivity | reflexivity | reflexivity].
Defined.

(** ** Weekdays *)

Lemma calcWeekday_rem (x : Z) (sf : bool) :
  0 <= x <= 10 ^ 18 ->
  calcWeekday x sf = Z.rem (x + (if sf then 6 else 5)) 7.
Proof.
  intros Hx. unfold calcWeekday. go_unfold. destruct sf; strip_int;
    f_equal; lia.
Qed.

(** X6.  On real dates from year 1 on, [calcWeekday] of the day number
    is a weekday index in 0..6 that advances by one, modulo 7, from each
    day to the next; the Sunday-first index is the Monday-first index
    plus one, modulo 7. *)
Theorem calcWeekday_next_day (y m d : Z) (sundayFirst : bool) :
  1 <= y < 10 ^ 16 -> validDate y m d = true ->
  let '(y', m', d') := nextDate y m d in
  0 <= calcWeekday (calcDaynr y m d) sundayFirst <= 6 /\
  calcWeekday (calcDaynr y' m' d') sundayFirst
  = (calcWeekday (calcDaynr y m d) sundayFirst + 1) mod 7 /\
  calcWeekday (calcDaynr y m d) true
  = (calcWeekday (calcDaynr y m d) false + 1) mod 7.
Proof.
  intros Hy Hv.
  pose proof (validDate_bounds _ _ _ Hv) as Hb.
  pose proof (daynr_nextDate y m d (proj1 Hy) Hv) as Hn.
  assert (1 <= daynr y m d <= 10 ^ 19 / 2) as Hr.
  { rewrite daynr_unfold by lia. unfold leapDays.
    destruct (m <=? 2); quot_lia. }
  unfold nextDate in *.
  destruct (d <? daysInMonth y m); [|destruct (m <? 12)].
  all: rewrite !calcDaynr_daynr by lia; rewrite Hn.
  all: generalize dependent (daynr y m d); intros n _ Hr.
  all: unfold calcWeekday; go_unfold; destruct sundayFirst; strip_int.
  all: quot_lia.
Qed.

Lemma calcWeekday_next_day_witness :
  1 <= 2000 < 10 ^ 16 /\ validDate 2000 2 29 = true /\
  calcWeekday (calcDaynr 2000 3 1) false
  = (calcWeekday (calcDaynr 2000 2 29) false + 1) mod 7.
Proof.
  split; [lia|]. split; [reflexivity|].
  apply (calcWeekday_next_day 2000 2 29 false); [lia | reflexivity].
Defined.

(** ** Construction, decomposition and encodings *)

(** X7.  [newMysqlTime] always builds a value whose fields fit their
    types, whatever integers it is given, and it stores the arguments
    unchanged when they already fit. *)
Theorem newMysqlTime_wf (y mo d h mi s us : Z) :
  wfTime (newMysqlTime y mo d h mi s us) = true /\
  (wfTime {| year := y; month := mo; day := d; hour := h; minute := mi;
             second := s; microsecond := us |} = true ->
   newMysqlTime y mo d h mi s us =
   {| year := y; month := mo; day := d; hour := h; minute := mi;
      second := s; microsecond := us |}).
Proof.
  split.
  - unfold wfTime, newMysqlTime, Go.uint16, Go.uint8, Go.uint32.
    cbn [Year Month Day Hour Minute Second Microsecond
         mysqlTime_TimeInternal year month day hour minute second microsecond].
    repeat (apply andb_true_intro; split);
      first [apply Z.leb_le | apply Z.ltb_lt];
      apply Z.mod_pos_bound; lia.
  - intros Hw. apply wfTime_bounds in Hw.
    cbn [Year Month Day Hour Minute Second Microsecond
         mysqlTime_TimeInternal year month day hour minute second microsecond]
      in Hw.
    unfold newMysqlTime, Go.uint16, Go.uint8, Go.uint32.
    rewrite !Z.mod_small by lia. reflexivity.
Qed.

Lemma newMysqlTime_wf_witness :
  wfTime {| year := 2000; month := 3; day := 15; hour := 12; minute := 30;
            second := 0; microsecond := 0 |} = true /\
  newMysqlTime 2000 3 15 12 30 0 0 =
  {| year := 2000; month := 3; day := 15; hour := 12; minute := 30;
     second := 0; microsecond := 0 |}.
Proof.
  assert (wfTime {| year := 2000; month := 3; day := 15; hour := 12;
                    minute := 30; second := 0; microsecond := 0 |} = true)
    as Hw by reflexivity.
  split; [exact Hw|].
  exact (proj2 (newMysqlTime_wf 2000 3 15 12 30 0 0) Hw).
Defined.

(** X8.  Below 256 hours [calcTimeFromSec] loses nothing: the hour,
    minute and second it stores recompose to the seconds it was given,
    with minute and second below 60, and a value whose fields fit their
    types keeps fitting them. *)
Theorem calcTimeFromSec_recompose (to : mysqlTime) (seconds microseconds : Z) :
  0 <= seconds < 256 * 3600 -> 0 <= microseconds < 2 ^ 32 ->
  let r := calcTimeFromSec to seconds microseconds in
  hour r * 3600 + minute r * 60 + second r = seconds /\
  0 <= minute r < 60 /\ 0 <= second r < 60 /\ 0 <= hour r < 256 /\
  microsecond r = microseconds /\
  (wfTime to = true -> wfTime r = true).
Proof.
  intros Hs Hu. unfold calcTimeFromSec.
  cbn [hour minute second microsecond]. go_unfold.
  unfold Go.uint8, Go.uint32. strip_int.
  rewrite !Z.mod_small by quot_lia.
  repeat split; try quot_lia.
  intros Hw. apply wfTime_bounds in Hw. unfold wfTime.
  cbn [Year Month Day Hour Minute Second Microsecond
       mysqlTime_TimeInternal year month day hour minute second microsecond]
    in *.
  repeat (apply andb_true_intro; split);
    first [apply Z.leb_le | apply Z.ltb_lt]; quot_lia.
Qed.

Lemma calcTimeFromSec_recompose_witness :
  0 <= 3723 < 256 * 3600 /\ 0 <= 5 < 2 ^ 32 /\
  hour (calcTimeFromSec date20000101 3723 5) * 3600
  + minute (calcTimeFromSec date20000101 3723 5) * 60
  + second (calcTimeFromSec date20000101 3723 5) = 3723.
Proof.
  split; [lia|]. split; [lia|].
  apply (calcTimeFromSec_recompose date20000101 3723 5); lia.
Defined.

Lemma datetimeToUint64_value {T : Type} `{TimeInternal T} (t : T) :
  wfTime t = true ->
  dateToUint64 t = Year t * 10000 + Month t * 100 + Day t /\
  timeToUint64 t = Hour t * 10000 + Minute t * 100 + Second t /\
  datetimeToUint64 t
  = (Year t * 10000 + Month t * 100 + Day t) * 1000000
    + (Hour t * 10000 + Minute t * 100 + Second t).
Proof.
  intros Hw. apply wfTime_bounds in Hw.
  unfold datetimeToUint64, dateToUint64, timeToUint64. go_unfold.
  strip_uint. repeat split; reflexivity.
Qed.

Section Encode.
Context {T1 T2 : Type} `{TimeInternal T1} `{TimeInternal T2}.

(** X9.  [datetimeToUint64] packs the fields as decimal digit groups
    YYYYMMDDHHMMSS without overflow: when month, day, hour, minute and
    second are below 100, every field is recovered from the number by
    division and remainder, the upper part is [dateToUint64] and the
    lower six digits are [timeToUint64].  The microsecond is not part of
    the number. *)
Theorem datetimeToUint64_decode (t : T1) :
  wfTime t = true -> twoDigitFields t = true ->
  let n := datetimeToUint64 t in
  n / 10000000000 = Year t /\
  n / 100000000 mod 100 = Month t /\
  n / 1000000 mod 100 = Day t /\
  n / 10000 mod 100 = Hour t /\
  n / 100 mod 100 = Minute t /\
  n mod 100 = Second t /\
  n / 1000000 = dateToUint64 t /\
  n mod 1000000 = timeToUint64 t.
Proof.
  intros Hw Hd.
  destruct (datetimeToUint64_value t Hw) as (Ed & Et & Edt).
  rewrite Ed, Et, Edt. cbv zeta.
  apply wfTime_bounds in Hw. unfold twoDigitFields in Hd. bool_hyps.
  repeat split; quot_lia.
Qed.

(** X10.  [datetimeToUint64] keeps the order of date-times: when month,
    day, hour, minute and second are below 100, comparing two encodings
    gives the same answer as comparing (year, month, day, hour, minute,
    second) field by field. *)
Theorem datetimeToUint64_order (t1 : T1) (t2 : T2) :
  wfTime t1 = true -> wfTime t2 = true ->
  twoDigitFields t1 = true -> twoDigitFields t2 = true ->
  (datetimeToUint64 t1 ?= datetimeToUint64 t2)
  = lexCompare [Year t1; Month t1; Day t1; Hour t1; Minute t1; Second t1]
               [Year t2; Month t2; Day t2; Hour t2; Minute t2; Second t2].
Proof.
  intros Hw1 Hw2 Hd1 Hd2.
  destruct (datetimeToUint64_value t1 Hw1) as (_ & _ & ->).
  destruct (datetimeToUint64_value t2 Hw2) as (_ & _ & ->).
  apply wfTime_bounds in Hw1, Hw2.
  unfold twoDigitFields in Hd1, Hd2. bool_hyps.
  cbn [lexCompare].
  repeat match goal with
  | |- context [match ?a ?= ?b with _ => _ end] =>
      destruct (Z.compare_spec a b)
  end.
  all: first [apply Z.compare_eq_iff | apply Z.compare_lt_iff
             | apply Z.compare_gt_iff].
  all: lia.
Qed.
End Encode.

Lemma datetimeToUint64_decode_witness :
  wfTime time20000315 = true /\ twoDigitFields time20000315 = true /\
  datetimeToUint64 time20000315 / 10000000000 = Year time20000315.
Proof.
  assert (wfTime time20000315 = true) as Hw by reflexivity.
  assert (twoDigitFields time20000315 = true) as Hd by reflexivity.
  split; [exact Hw|]. split; [exact Hd|].
  exact (proj1 (datetimeToUint64_decode time20000315 Hw Hd)).
Defined.

Lemma datetimeToUint64_order_witness :
  wfTime time20000315 = true /\ wfTime time20001130 = true /\
  twoDigitFields time20000315 = true /\ twoDigitFields time20001130 = true /\
  (datetimeToUint64 time20000315 ?= datetimeToUint64 time20001130)
  = lexCompare [Year time20000315; Month time20000315; Day time20000315;
                Hour time20000315; Minute time20000315; Second time20000315]
               [Year time20001130; Month time20001130; Day time20001130;
                Hour time20001130; Minute time20001130; Second time20001130].
Proof.
  repeat (split; [reflexivity|]).
  apply datetimeToUint64_order; reflexivity.
Defined.

(** ** Differences *)

Section DiffValue.
Context {T1 T2 : Type} `{TimeInternal T1} `{TimeInternal T2}.

(** X11.  [calcTimeDiff] returns sign and magnitude of an exact
    difference: with each time taken as its microsecond stamp (day
    number, time of day, microsecond) and sign +1 or -1, the result has
    0 <= microseconds < 1000000, its seconds and microseconds recompose
    to the absolute value of stamp1 - sign * stamp2, and neg is set
    exactly when that difference is negative.  Nothing overflows for
    fields within their widths. *)
Theorem calcTimeDiff_normal_form (t1 : T1) (t2 : T2) (sign : Z) :
  wfTime t1 = true -> wfTime t2 = true -> sign = 1 \/ sign = -1 ->
  let '(s, us, neg) := calcTimeDiff t1 t2 sign in
  let stamp1 :=
    (calcDaynr (Year t1) (Month t1) (Day t1) * 86400
     + Hour t1 * 3600 + Minute t1 * 60 + Second t1) * 1000000
    + Microsecond t1 in
  let stamp2 :=
    (calcDaynr (Year t2) (Month t2) (Day t2) * 86400
     + Hour t2 * 3600 + Minute t2 * 60 + Second t2) * 1000000
    + Microsecond t2 in
  0 <= s /\ 0 <= us < 1000000 /\
  (if neg then - (s * 1000000 + us) else s * 1000000 + us)
  = stamp1 - sign * stamp2 /\
  (neg = true <-> stamp1 - sign * stamp2 < 0).
Proof.
  intros Hw1 Hw2 Hs.
  rewrite (calcTimeDiff_micros t1 t2 sign Hw1 Hw2 Hs). cbv zeta.
  pose proof (wfTime_bounds t1 Hw1) as B1.
  pose proof (wfTime_bounds t2 Hw2) as B2.
  rewrite !calcDaynr_daynr by lia.
  unfold micros, secondOfDay.
  destruct Hs as [-> | ->].
  all: match goal with
       | |- _ /\ _ /\ _ = ?e /\ _ =>
           match goal with
           | |- context [Z.abs ?d] => replace e with d by lia; generalize d
           end
       end.
  all: intros d; destruct (d <? 0) eqn:E; bool_hyps;
    [rewrite Z.abs_neq by lia | rewrite Z.abs_eq by lia].
  all: repeat split; try quot_lia; try discriminate; intros; lia.
Qed.
End DiffValue.

Lemma calcTimeDiff_normal_form_witness :
  wfTime time20000315 = true /\ wfTime time20001130 = true /\
  (-1 = 1 \/ -1 = -1) /\
  let '(s, us, neg) := calcTimeDiff time20000315 time20001130 (-1) in
  0 <= s /\ 0 <= us < 1000000.
Proof.
  assert (wfTime time20000315 = true) as Hw1 by reflexivity.
  assert (wfTime time20001130 = true) as Hw2 by reflexivity.
  assert (-1 = 1 \/ -1 = -1) as Hs by (right; reflexivity).
  split; [exact Hw1|]. split; [exact Hw2|]. split; [exact Hs|].
  pose proof (calcTimeDiff_normal_form time20000315 time20001130 (-1)
                Hw1 Hw2 Hs) as Hn.
  destruct (calcTimeDiff time20000315 time20001130 (-1)) as [[s us] neg].
  destruct Hn as (Hs0 & Hus & _). split; assumption.
Defined.

Ltac eval_unit :=
  cbv beta iota delta [String.eqb Ascii.eqb Bool.eqb orb
    intervalYEAR intervalQUARTER intervalMONTH intervalWEEK intervalDAY
    intervalHOUR intervalMINUTE intervalSECOND intervalMICROSECOND].

Section DiffValues.
Context {T1 T2 : Type} `{TimeInternal T1} `{TimeInternal T2}.

Lemma timestampDiff_fine (t1 : T1) (t2 : T2) :
  wfTime t1 = true -> wfTime t2 = true ->
  let d := micros t2 - micros t1 in
  timestampDiff intervalMICROSECOND t1 t2 = d /\
  timestampDiff intervalSECOND t1 t2 = d ÷ 1000000 /\
  timestampDiff intervalMINUTE t1 t2 = d ÷ 1000000 ÷ 60 /\
  timestampDiff intervalHOUR t1 t2 = d ÷ 1000000 ÷ 3600 /\
  timestampDiff intervalDAY t1 t2 = d ÷ 1000000 ÷ 86400 /\
  timestampDiff intervalWEEK t1 t2 = d ÷ 1000000 ÷ 86400 ÷ 7.
Proof.
  intros Hw1 Hw2.
  pose proof (micros_range t1 Hw1) as R1.
  pose proof (micros_range t2 Hw2) as R2.
  unfold timestampDiff.
  rewrite (calcTimeDiff_micros t2 t1 1 Hw2 Hw1 (or_introl eq_refl)).
  cbv zeta.
  replace (micros t2 - 1 * micros t1) with (micros t2 - micros t1) by lia.
  set (d := micros t2 - micros t1) in *.
  assert (- 4 * 10 ^ 18 <= d <= 4 * 10 ^ 18) as Hd by (unfold d; lia).
  clearbody d. eval_unit. unfold secondsIn24Hour. go_unfold.
  destruct (d <? 0) eqn:Eneg; bool_hyps.
  - rewrite Z.abs_neq by lia. strip_int.
    rewrite <- !Z.opp_eq_mul_m1.
    assert (- d ÷ 1000000 = - (d ÷ 1000000)) as -> by (apply Z.quot_opp_l; lia).
    rewrite !Z.quot_opp_l, !Z.opp_involutive by lia.
    repeat split; try reflexivity. quot_lia.
  - rewrite Z.abs_eq by lia. strip_int. rewrite !Z.mul_1_r.
    repeat split; try reflexivity. quot_lia.
Qed.

Lemma timestampDiff_months (t1 : T1) (t2 : T2) :
  validTime t1 = true -> validTime t2 = true ->
  let neg := micros t2 - micros t1 <? 0 in
  let m := if neg then monthsBetween (endpoint t2) (endpoint t1)
           else monthsBetween (endpoint t1) (endpoint t2) in
  let sg := if neg then -1 else 1 in
  0 <= m <= 12 * 2 ^ 16 /\
  timestampDiff intervalMONTH t1 t2 = sg * m /\
  timestampDiff intervalQUARTER t1 t2 = sg * (m ÷ 3) /\
  timestampDiff intervalYEAR t1 t2 = sg * (m ÷ 12).
Proof.
  intros Hv1 Hv2.
  pose proof (validTime_wfTime t1 Hv1) as Hw1.
  pose proof (validTime_wfTime t2 Hv2) as Hw2.
  unfold timestampDiff.
  rewrite (calcTimeDiff_micros t2 t1 1 Hw2 Hw1 (or_introl eq_refl)).
  cbv zeta.
  replace (micros t2 - 1 * micros t1) with (micros t2 - micros t1) by lia.
  eval_unit.
  destruct (micros t2 - micros t1 <? 0) eqn:Eneg; bool_hyps.
  - destruct (monthsBetween_range t2 t1 Hv2 Hv1 ltac:(lia)) as [Rm _].
    generalize dependent (monthsBetween (endpoint t2) (endpoint t1)).
    intros m Rm. go_unfold. strip_int. lia.
  - destruct (monthsBetween_range t1 t2 Hv1 Hv2 ltac:(lia)) as [Rm _].
    generalize dependent (monthsBetween (endpoint t1) (endpoint t2)).
    intros m Rm. go_unfold. strip_int. lia.
Qed.
End DiffValues.

Section DiffProps.
Context {T1 T2 : Type} `{TimeInternal T1} `{TimeInternal T2}.

(** X12.  The second-based units of [timestampDiff] are truncations of
    one another toward zero, for all values with fields within their
    widths: SECOND is MICROSECOND / 1000000, MINUTE, HOUR and DAY are
    SECOND / 60, / 3600 and / 86400, and WEEK is DAY / 7, with Go's
    truncated division. *)
Theorem timestampDiff_fine_units (t1 : T1) (t2 : T2) :
  wfTime t1 = true -> wfTime t2 = true ->
  timestampDiff intervalSECOND t1 t2
  = timestampDiff intervalMICROSECOND t1 t2 ÷ 1000000 /\
  timestampDiff intervalMINUTE t1 t2 = timestampDiff intervalSECOND t1 t2 ÷ 60 /\
  timestampDiff intervalHOUR t1 t2 = timestampDiff intervalSECOND t1 t2 ÷ 3600 /\
  timestampDiff intervalDAY t1 t2 = timestampDiff intervalSECOND t1 t2 ÷ 86400 /\
  timestampDiff intervalWEEK t1 t2 = timestampDiff intervalDAY t1 t2 ÷ 7.
Proof.
  intros Hw1 Hw2.
  destruct (timestampDiff_fine t1 t2 Hw1 Hw2) as (-> & -> & -> & -> & -> & ->).
  repeat split; reflexivity.
Qed.

(** X13.  On real date-times the month-based units of [timestampDiff]
    are truncations of the month count toward zero: QUARTER is
    MONTH / 3 and YEAR is MONTH / 12. *)
Theorem timestampDiff_month_units (t1 : T1) (t2 : T2) :
  validTime t1 = true -> validTime t2 = true ->
  timestampDiff intervalQUARTER t1 t2 = timestampDiff intervalMONTH t1 t2 ÷ 3 /\
  timestampDiff intervalYEAR t1 t2 = timestampDiff intervalMONTH t1 t2 ÷ 12.
Proof.
  intros Hv1 Hv2.
  destruct (timestampDiff_months t1 t2 Hv1 Hv2) as (Rm & -> & -> & ->).
  destruct (micros t2 - micros t1 <? 0); split; quot_lia.
Qed.
End DiffProps.

Lemma timestampDiff_fine_units_witness :
  wfTime time20000315 = true /\ wfTime time20001130 = true /\
  timestampDiff intervalSECOND time20000315 time20001130
  = timestampDiff intervalMICROSECOND time20000315 time20001130 ÷ 1000000.
Proof.
  assert (wfTime time20000315 = true) as Hw1 by reflexivity.
  assert (wfTime time20001130 = true) as Hw2 by reflexivity.
  split; [exact Hw1|]. split; [exact Hw2|].
  exact (proj1 (timestampDiff_fine_units time20000315 time20001130 Hw1 Hw2)).
Defined.

Lemma timestampDiff_month_units_witness :
  validTime time20000315 = true /\ validTime time20001130 = true /\
  timestampDiff intervalQUARTER time20000315 time20001130
  = timestampDiff intervalMONTH time20000315 time20001130 ÷ 3.
Proof.
  assert (validTime time20000315 = true) as Hv1 by reflexivity.
  assert (validTime time20001130 = true) as Hv2 by reflexivity.
  split; [exact Hv1|]. split; [exact Hv2|].
  exact (proj1 (timestampDiff_month_units time20000315 time20001130 Hv1 Hv2)).
Defined.

Section DiffSwap.
Context {T1 T2 : Type} `{TimeInternal T1} `{TimeInternal T2}.

(** X14.  [timestampDiff] is antisymmetric on real date-times: for every
    supported unit, swapping the two arguments negates the result. *)
Theorem timestampDiff_antisymmetric (u : string) (t1 : T1) (t2 : T2) :
  In u supportedIntervals ->
  validTime t1 = true -> validTime t2 = true ->
  timestampDiff u t2 t1 = - timestampDiff u t1 t2.
Proof.
  intros Hu Hv1 Hv2.
  pose proof (validTime_wfTime t1 Hv1) as Hw1.
  pose proof (validTime_wfTime t2 Hv2) as Hw2.
  destruct (timestampDiff_fine t1 t2 Hw1 Hw2) as (F1 & F2 & F3 & F4 & F5 & F6).
  destruct (timestampDiff_fine t2 t1 Hw2 Hw1) as (G1 & G2 & G3 & G4 & G5 & G6).
  destruct (timestampDiff_months t1 t2 Hv1 Hv2) as (Rm & M1 & M2 & M3).
  destruct (timestampDiff_months t2 t1 Hv2 Hv1) as (Rm' & N1 & N2 & N3).
  cbv zeta in *.
  assert (micros t1 - micros t2 = - (micros t2 - micros t1)) as Eo by lia.
  unfold supportedIntervals in Hu. cbn [In] in Hu.
  repeat (destruct Hu as [<- | Hu]); try contradiction.
  1-3: rewrite ?M1, ?M2, ?M3, ?N1, ?N2, ?N3.
  1-3: destruct (micros t2 - micros t1 <? 0) eqn:E1,
                (micros t1 - micros t2 <? 0) eqn:E2; bool_hyps; try lia.
  1-3: destruct (monthsBetween_range t1 t2 Hv1 Hv2 ltac:(lia)) as [_ Z1];
       destruct (monthsBetween_range t2 t1 Hv2 Hv1 ltac:(lia)) as [_ Z2];
       rewrite Z1, Z2 by lia; reflexivity.
  all: rewrite ?F1, ?F2, ?F3, ?F4, ?F5, ?F6, ?G1, ?G2, ?G3, ?G4, ?G5, ?G6, Eo.
  all: rewrite ?Z.quot_opp_l by lia; reflexivity.
Qed.

(** X16.  On real date-times with t1 not later than t2, the MONTH unit
    of [timestampDiff] is the number of whole months from t1 to t2: the
    difference in calendar months, less one when the day and time of day
    of t2 come before those of t1. *)
Theorem timestampDiff_month_count (t1 : T1) (t2 : T2) :
  validTime t1 = true -> validTime t2 = true -> notLater t1 t2 ->
  timestampDiff intervalMONTH t1 t2
  = 12 * (Year t2 - Year t1) + (Month t2 - Month t1)
    - match lexCompare
              [Day t2; Hour t2; Minute t2; Second t2; Microsecond t2]
              [Day t1; Hour t1; Minute t1; Second t1; Microsecond t1]
      with
      | Lt => 1
      | _ => 0
      end.
Proof.
  intros Hv1 Hv2 Hle.
  unfold notLater in Hle. rewrite (compareTime_micros t1 t2 Hv1 Hv2) in Hle.
  assert (micros t1 <= micros t2) as Hle'
    by (apply Z.compare_le_iff; exact Hle).
  clear Hle. rename Hle' into Hle.
  destruct (timestampDiff_months t1 t2 Hv1 Hv2) as (_ & -> & _).
  replace (micros t2 - micros t1 <? 0) with false
    by (symmetry; apply Z.ltb_ge; lia).
  rewrite !endpoint_valid by assumption.
  apply validTime_bounds in Hv1, Hv2.
  destruct Hv1 as (Hy1 & Hd1 & HM1 & HD1 & Hh1 & Hm1 & Hs1 & Hu1).
  destruct Hv2 as (Hy2 & Hd2 & HM2 & HD2 & Hh2 & Hm2 & Hs2 & Hu2).
  pose proof (daynr_lex_lt (Year t1) (Month t1) (Day t1)
                           (Year t2) (Month t2) (Day t2)
                           (proj1 Hy1) (proj1 Hy2) Hd1 Hd2) as Hlt.
  pose proof (daynr_lex_lt (Year t2) (Month t2) (Day t2)
                           (Year t1) (Month t1) (Day t1)
                           (proj1 Hy2) (proj1 Hy1) Hd2 Hd1) as Hgt.
  assert (Year t1 = Year t2 -> Month t1 = Month t2 -> Day t1 = Day t2 ->
          daynr (Year t1) (Month t1) (Day t1)
          = daynr (Year t2) (Month t2) (Day t2)) as Heq
    by (intros -> -> ->; reflexivity).
  unfold micros, secondOfDay in *.
  generalize dependent (daynr (Year t1) (Month t1) (Day t1)).
  generalize dependent (daynr (Year t2) (Month t2) (Day t2)).
  intros n2 n1 Hle Hlt Hgt Heq.
  clear Hd1 Hd2.
  unfold monthsBetween. go_unfold. cbn [lexCompare].
  repeat match goal with
  | |- context [match ?a ?= ?b with _ => _ end] =>
      destruct (Z.compare_spec a b)
  end.
  all: split_ifs; bool_hyps; strip_uint; lia.
Qed.
End DiffSwap.

Lemma timestampDiff_antisymmetric_witness :
  In intervalQUARTER supportedIntervals /\
  validTime time20000315 = true /\ validTime time20001130 = true /\
  timestampDiff intervalQUARTER time20001130 time20000315
  = - timestampDiff intervalQUARTER time20000315 time20001130.
Proof.
  assert (In intervalQUARTER supportedIntervals) as Hu
    by (right; left; reflexivity).
  split; [exact Hu|]. split; [reflexivity|]. split; [reflexivity|].
  apply (timestampDiff_antisymmetric intervalQUARTER
           time20000315 time20001130); [exact Hu | reflexivity | reflexivity].
Defined.

Lemma timestampDiff_month_count_witness :
  validTime time20000315 = true /\ validTime time20001130 = true /\
  notLater time20000315 time20001130 /\
  timestampDiff intervalMONTH time20000315 time20001130
  = 12 * (Year time20001130 - Year time20000315)
    + (Month time20001130 - Month time20000315)
    - match lexCompare
              [Day time20001130; Hour time20001130; Minute time20001130;
               Second time20001130; Microsecond time20001130]
              [Day time20000315; Hour time20000315; Minute time20000315;
               Second time20000315; Microsecond time20000315]
      with
      | Lt => 1
      | _ => 0
      end.
Proof.
  split; [reflexivity|]. split; [reflexivity|].
  assert (notLater time20000315 time20001130) as Hle
    by (vm_compute; discriminate).
  split; [exact Hle|].
  apply (timestampDiff_month_count time20000315 time20001130);
    [reflexivity | reflexivity | exact Hle].
Defined.

(** X15.  The MICROSECOND unit of [timestampDiff] is additive over an
    intermediate time, for all values with fields within their widths:
    the difference from t1 to t3 is the sum of the differences from t1
    to t2 and from t2 to t3. *)
Theorem timestampDiff_microsecond_additive {T1 T2 T3 : Type}
    `{TimeInternal T1} `{TimeInternal T2} `{TimeInternal T3}
    (t1 : T1) (t2 : T2) (t3 : T3) :
  wfTime t1 = true -> wfTime t2 = true -> wfTime t3 = true ->
  timestampDiff intervalMICROSECOND t1 t3
  = timestampDiff intervalMICROSECOND t1 t2
    + timestampDiff intervalMICROSECOND t2 t3.
Proof.
  intros Hw1 Hw2 Hw3.
  destruct (timestampDiff_fine t1 t3 Hw1 Hw3) as (-> & _).
  destruct (timestampDiff_fine t1 t2 Hw1 Hw2) as (-> & _).
  destruct (timestampDiff_fine t2 t3 Hw2 Hw3) as (-> & _).
  lia.
Qed.

Lemma timestampDiff_microsecond_additive_witness :
  wfTime date20000101 = true /\ wfTime time20000315 = true /\
  wfTime time20001130 = true /\
  timestampDiff intervalMICROSECOND date20000101 time20001130
  = timestampDiff intervalMICROSECOND date20000101 time20000315
    + timestampDiff intervalMICROSECOND time20000315 time20001130.
Proof.
  repeat (split; [reflexivity|]).
  apply (timestampDiff_microsecond_additive
           date20000101 time20000315 time20001130); reflexivity.
Defined.

(** ** Weeks *)

Lemma weekMode_bits (mode : Z) :
  let wb := Z.lor (weekMode mode) weekBehaviourYear in
  test wb weekBehaviourYear = true /\
  test wb weekBehaviourMondayFirst = Z.testbit mode 0 /\
  test wb weekBehaviourFirstWeekday
  = xorb (Z.testbit mode 2) (negb (Z.testbit mode 0)) /\
  test (weekMode mode) weekBehaviourYear = Z.testbit mode 1 /\
  test (weekMode mode) weekBehaviourMondayFirst = Z.testbit mode 0 /\
  test (weekMode mode) weekBehaviourFirstWeekday
  = xorb (Z.testbit mode 2) (negb (Z.testbit mode 0)) /\
  (Z.testbit mode 1 = true -> wb = weekMode mode) /\
  wb = weekMode (Z.lor mode 2).
Proof.
  cbv zeta.
  rewrite (testbit_low3 mode 0), (testbit_low3 mode 1), (testbit_low3 mode 2)
    by lia.
  unfold weekMode. rewrite Z.land_lor_distr_l.
  change (Z.land 2 7) with 2. rewrite land7_mod8.
  pose proof (Z.mod_pos_bound mode 8 ltac:(lia)) as Hr.
  generalize dependent (mode mod 8). intros r Hr.
  assert (r = 0 \/ r = 1 \/ r = 2 \/ r = 3 \/ r = 4 \/ r = 5 \/ r = 6 \/ r = 7)
    as Hc by lia.
  destruct Hc as [->|[->|[->|[->|[->|[->|[->| ->]]]]]]];
    vm_compute; intuition discriminate.
Qed.

Lemma daynr_year_chain (y : Z) :
  2 <= y < 2 ^ 16 ->
  daynr (y - 1) 1 1 = daynr y 1 1 - calcDaysInYear (y - 1) /\
  daynr (y - 1 + 1) 1 1 = daynr y 1 1 /\
  daynr (y + 1) 1 1 = daynr y 1 1 + calcDaysInYear y /\
  daynr (y + 1 + 1) 1 1
  = daynr y 1 1 + calcDaysInYear y + calcDaysInYear (y + 1).
Proof.
  intros Hy.
  pose proof (calcDaynr_year_step (y - 1) ltac:(lia)) as E1.
  pose proof (calcDaynr_year_step y ltac:(lia)) as E2.
  pose proof (calcDaynr_year_step (y + 1) ltac:(lia)) as E3.
  rewrite !calcDaynr_daynr in E1, E2, E3 by lia.
  replace (y - 1 + 1) with y in * by lia.
  repeat split; lia.
Qed.

Lemma weekOneStart_unfold (wb : weekBehaviour) (y : Z) :
  1 <= y <= 2 ^ 16 ->
  weekOneStart wb y =
  (if (test wb weekBehaviourFirstWeekday
       && negb (Z.rem (daynr y 1 1
                       + (if negb (test wb weekBehaviourMondayFirst)
                          then 6 else 5)) 7 =? 0))
      || (negb (test wb weekBehaviourFirstWeekday)
          && (4 <=? Z.rem (daynr y 1 1
                           + (if negb (test wb weekBehaviourMondayFirst)
                              then 6 else 5)) 7))
   then daynr y 1 1 + 7
        - Z.rem (daynr y 1 1
                 + (if negb (test wb weekBehaviourMondayFirst)
                    then 6 else 5)) 7
   else daynr y 1 1
        - Z.rem (daynr y 1 1
                 + (if negb (test wb weekBehaviourMondayFirst)
                    then 6 else 5)) 7).
Proof.
  intros Hy. unfold weekOneStart. cbv zeta.
  rewrite calcDaynr_daynr by lia.
  assert (1 <= daynr y 1 1 <= 10 ^ 9) as Hr.
  { rewrite daynr_unfold by lia. unfold leapDays.
    cbn [Z.leb Z.compare Pos.compare Pos.compare_cont]. quot_lia. }
  rewrite calcWeekday_rem by lia. reflexivity.
Qed.

Lemma weekOneStart_facts (wb : weekBehaviour) (y : Z) :
  1 <= y < 2 ^ 16 ->
  calcWeekday (weekOneStart wb y) (negb (test wb weekBehaviourMondayFirst)) = 0
  /\ (if test wb weekBehaviourFirstWeekday
      then calcDaynr y 1 1 <= weekOneStart wb y <= calcDaynr y 1 1 + 6
      else calcDaynr y 1 1 - 3 <= weekOneStart wb y <= calcDaynr y 1 1 + 3)
  /\ (weekOneStart wb (y + 1) = weekOneStart wb y + 52 * 7
      \/ weekOneStart wb (y + 1) = weekOneStart wb y + 53 * 7).
Proof.
  intros Hy.
  pose proof (daynr_first_day y Hy) as Hf.
  pose proof (calcDaynr_year_step y ltac:(lia)) as Hl.
  pose proof (calcDaysInYear_cases y) as HL.
  rewrite !weekOneStart_unfold by lia.
  rewrite !calcDaynr_daynr in * by lia. rewrite Hl.
  remember (calcDaysInYear y) as L eqn:EL. clear EL.
  remember (daynr y 1 1) as first eqn:Ef. clear Ef.
  rewrite calcWeekday_rem.
  2:{ split_ifs; quot_lia. }
  remember (if negb (test wb weekBehaviourMondayFirst) then 6 else 5)
    as c eqn:Ec.
  assert (5 <= c <= 6) as Hc
    by (subst c; destruct (negb (test wb weekBehaviourMondayFirst)); lia).
  clear Ec Hl.
  destruct HL as [-> | ->];
    destruct (test wb weekBehaviourFirstWeekday); cbn [negb andb orb].
  all: split_ifs; bool_hyps.
  all: repeat split; try quot_lia.
Qed.

Lemma weekOneStart_mono (wb : weekBehaviour) (a b : Z) :
  1 <= a <= b -> b < 2 ^ 16 ->
  weekOneStart wb a + 364 * (b - a) <= weekOneStart wb b.
Proof.
  intros [Ha Hab]. revert Ha. pattern b.
  apply Z.le_ind with (n := a); try assumption.
  - intros x y ->. tauto.
  - lia.
  - intros m Hm IH Ha Hb.
    destruct (weekOneStart_facts wb m ltac:(lia)) as (_ & _ & Hs).
    replace (Z.succ m) with (m + 1) by lia.
    specialize (IH Ha ltac:(lia)). lia.
Qed.

Ltac split_year_lengths :=
  repeat match goal with
  | HX : ?X = 365 \/ ?X = 366 |- _ =>
      first [ match goal with |- context [X] => idtac end
            | match goal with H' : context [Z.rem ?a 7] |- _ =>
                match a with context [X] => idtac end end ];
      destruct HX as [-> | ->]
  | HX : ?X = 365 \/ ?X = 366 |- _ => clear HX
  end.

Lemma calcWeek_bounds (t : mysqlTime) (wb : weekBehaviour) :
  1 <= year t < 2 ^ 16 ->
  validDate (year t) (month t) (day t) = true ->
  let '(y, w) := calcWeek t wb in
  if test wb weekBehaviourYear
  then 1 <= w <= 53 /\ year t - 1 <= y <= year t + 1
  else 0 <= w <= 53 /\ y = year t.
Proof.
  intros Hy Hv.
  pose proof (validDate_bounds _ _ _ Hv) as Hb.
  pose proof (daynr_yearday _ _ _ (proj1 Hy) Hv) as Hyd.
  pose proof (daynr_after_january _ _ _ (proj1 Hy) Hv) as Hjan.
  pose proof (daynr_first_day _ Hy) as Hfirst.
  pose proof (calcDaysInYear_isLeap (year t) (proj1 Hy)) as HL.
  pose proof (calcDaysInYear_cases (year t - 1)) as HLp.
  unfold calcWeek, calcWeekday.
  rewrite !calcDaynr_daynr by lia.
  go_unfold. rewrite !(int_id (year t - 1)) by lia.
  generalize dependent (daynr (year t) (month t) (day t)).
  generalize dependent (daynr (year t) 1 1).
  intros first Hfirst n Hyd Hjan.
  generalize dependent (calcDaysInYear (year t)).
  generalize dependent (calcDaysInYear (year t - 1)).
  intros Lp HLp L HL.
  assert (L = 365 \/ L = 366) as HL' by (destruct (isLeap (year t)); lia).
  assert (n - first <= L - 1) as Hyd' by (destruct (isLeap (year t)); lia).
  clear HL Hv Hyd.
  destruct (test wb weekBehaviourMondayFirst),
           (test wb weekBehaviourYear),
           (test wb weekBehaviourFirstWeekday);
    cbn [negb andb orb]; strip_int.
  all: split_ifs; bool_hyps; strip_int.
  all: try quot_lia.
Qed.

Lemma calcWeek_characterised (t : mysqlTime) (wb : weekBehaviour) :
  2 <= year t < 2 ^ 16 - 2 ->
  validDate (year t) (month t) (day t) = true ->
  test wb weekBehaviourYear = true ->
  let n := calcDaynr (year t) (month t) (day t) in
  let '(y, w) := calcWeek t wb in
  weekOneStart wb y <= n < weekOneStart wb (y + 1) /\
  w = (n - weekOneStart wb y) / 7 + 1.
Proof.
  intros Hy Hv Hflag.
  pose proof (validDate_bounds _ _ _ Hv) as Hb.
  assert (1 <= year t) as Hy1 by lia.
  assert (1 <= year t < 2 ^ 16) as Hy16 by lia.
  pose proof (daynr_yearday _ _ _ Hy1 Hv) as Hyd.
  pose proof (daynr_after_january _ _ _ Hy1 Hv) as Hjan.
  pose proof (daynr_first_day (year t) Hy16) as Hfirst.
  pose proof (calcDaysInYear_isLeap (year t) Hy1) as HL.
  pose proof (calcDaysInYear_cases (year t - 1)) as HLp.
  pose proof (calcDaysInYear_cases (year t + 1)) as HLn.
  destruct (daynr_year_chain (year t) ltac:(lia)) as (C1 & C2 & C3 & C4).
  assert (calcDaysInYear (year t) = 365 \/ calcDaysInYear (year t) = 366)
    as HL' by (destruct (isLeap (year t)); lia).
  assert (daynr (year t) (month t) (day t) - daynr (year t) 1 1
          <= calcDaysInYear (year t) - 1)
    as Hyd' by (destruct (isLeap (year t)); lia).
  clear HL Hv Hyd.
  unfold calcWeek. cbv zeta. rewrite Hflag. clear Hflag.
  go_unfold. rewrite !(int_id (year t - 1)) by lia.
  rewrite !(calcDaynr_daynr (year t) (month t) (day t)) by lia.
  rewrite !(calcDaynr_daynr (year t) 1 1) by lia.
  rewrite (calcWeekday_rem (daynr (year t) 1 1)) by lia.
  remember (if negb (test wb weekBehaviourMondayFirst) then 6 else 5)
    as c eqn:Ec.
  assert (5 <= c <= 6) as Hc
    by (subst c; destruct (negb (test wb weekBehaviourMondayFirst)); lia).
  symmetry in Ec.
  set (wd := Z.rem (daynr (year t) 1 1 + c) 7) in *.
  assert (exists q, daynr (year t) 1 1 + c = 7 * q + wd /\ 0 <= wd <= 6)
    as (q & Hq & Hwd)
    by (exists ((daynr (year t) 1 1 + c) ÷ 7); unfold wd; quot_lia).
  clearbody wd.
  remember (daynr (year t) (month t) (day t)) as n eqn:En. clear En.
  assert (daynr (year t) 1 1 = 7 * q + wd - c) as C0 by lia. clear Hq.
  rewrite C0 in *. clear C2.
  remember (calcDaysInYear (year t + 1)) as Ln eqn:E1. clear E1.
  remember (calcDaysInYear (year t - 1)) as Lp eqn:E2. clear E2.
  remember (calcDaysInYear (year t)) as L eqn:E3. clear E3.
  destruct (test wb weekBehaviourFirstWeekday) eqn:Efw;
    cbn [negb andb orb]; strip_int.
  all: split_ifs; bool_hyps; strip_int; cbv beta iota.
  all: rewrite ?Z.sub_add; rewrite ?(int_id (year t + 1)) by lia.
  all: rewrite !weekOneStart_unfold by lia.
  all: rewrite Efw, Ec, ?C0, ?C1, ?C3, ?C4; cbn [negb andb orb].
  all: split_year_lengths.
  all: split_ifs; bool_hyps.
  all: quot_lia.
Qed.

Lemma calcWeek_plain_count (t : mysqlTime) (wb : weekBehaviour) :
  2 <= year t < 2 ^ 16 - 2 ->
  validDate (year t) (month t) (day t) = true ->
  test wb weekBehaviourYear = false ->
  let n := calcDaynr (year t) (month t) (day t) in
  calcWeek t wb =
  (year t,
   if n <? weekOneStart wb (year t) then 0
   else (n - weekOneStart wb (year t)) / 7 + 1).
Proof.
  intros Hy Hv Hflag.
  pose proof (validDate_bounds _ _ _ Hv) as Hb.
  assert (1 <= year t) as Hy1 by lia.
  assert (1 <= year t < 2 ^ 16) as Hy16 by lia.
  pose proof (daynr_yearday _ _ _ Hy1 Hv) as Hyd.
  pose proof (daynr_after_january _ _ _ Hy1 Hv) as Hjan.
  pose proof (daynr_first_day (year t) Hy16) as Hfirst.
  pose proof (calcDaysInYear_isLeap (year t) Hy1) as HL.
  pose proof (calcDaysInYear_cases (year t - 1)) as HLp.
  assert (calcDaysInYear (year t) = 365 \/ calcDaysInYear (year t) = 366)
    as HL' by (destruct (isLeap (year t)); lia).
  assert (daynr (year t) (month t) (day t) - daynr (year t) 1 1
          <= calcDaysInYear (year t) - 1)
    as Hyd' by (destruct (isLeap (year t)); lia).
  clear HL Hv Hyd.
  cbv zeta. rewrite weekOneStart_unfold by lia.
  unfold calcWeek. cbv zeta. rewrite Hflag. clear Hflag.
  go_unfold. rewrite !(int_id (year t - 1)) by lia.
  rewrite !(calcDaynr_daynr (year t) (month t) (day t)) by lia.
  rewrite !(calcDaynr_daynr (year t) 1 1) by lia.
  rewrite (calcWeekday_rem (daynr (year t) 1 1)) by lia.
  remember (if negb (test wb weekBehaviourMondayFirst) then 6 else 5)
    as c eqn:Ec.
  assert (5 <= c <= 6) as Hc
    by (subst c; destruct (negb (test wb weekBehaviourMondayFirst)); lia).
  clear Ec.
  set (wd := Z.rem (daynr (year t) 1 1 + c) 7) in *.
  assert (exists q, daynr (year t) 1 1 + c = 7 * q + wd /\ 0 <= wd <= 6)
    as (q & Hq & Hwd)
    by (exists ((daynr (year t) 1 1 + c) ÷ 7); unfold wd; quot_lia).
  clearbody wd.
  remember (daynr (year t) (month t) (day t)) as n eqn:En. clear En.
  assert (daynr (year t) 1 1 = 7 * q + wd - c) as C0 by lia. clear Hq.
  rewrite C0 in *.
  remember (calcDaysInYear (year t - 1)) as Lp eqn:E2. clear E2.
  remember (calcDaysInYear (year t)) as L eqn:E3. clear E3.
  destruct (test wb weekBehaviourFirstWeekday) eqn:Efw;
    cbn [negb andb orb]; strip_int.
  all: split_ifs; bool_hyps; strip_int.
  all: rewrite ?Z.sub_add.
  all: split_year_lengths.
  all: try (f_equal; quot_lia).
Qed.

Lemma calcWeek_step (t t' : mysqlTime) (wb : weekBehaviour) :
  2 <= year t < 2 ^ 16 - 3 ->
  validDate (year t) (month t) (day t) = true ->
  (year t', month t', day t') = nextDate (year t) (month t) (day t) ->
  test wb weekBehaviourYear = true ->
  let '(y, w) := calcWeek t wb in
  let '(y', w') := calcWeek t' wb in
  if calcWeekday (calcDaynr (year t') (month t') (day t'))
                 (negb (test wb weekBehaviourMondayFirst)) =? 0
  then (y' = y /\ w' = w + 1) \/ (y' = y + 1 /\ w' = 1)
  else y' = y /\ w' = w.
Proof.
  intros Hy Hv Hn Hflag.
  assert (1 <= year t) as Hy1 by lia.
  assert (2 <= year t < 2 ^ 16 - 2) as Hy2 by lia.
  assert (1 <= year t < 2 ^ 16) as Hy16 by lia.
  pose proof (nextDate_valid _ _ _ Hv) as Hv'.
  pose proof (daynr_nextDate _ _ _ Hy1 Hv) as Hd.
  rewrite <- Hn in Hv', Hd. cbv beta iota zeta in Hv'.
  destruct Hv' as [Hv' Hy'].
  assert (2 <= year t' < 2 ^ 16 - 2) as Hy2' by lia.
  assert (1 <= year t' < 2 ^ 16) as Hy16' by lia.
  pose proof (validDate_bounds _ _ _ Hv) as Hb.
  pose proof (validDate_bounds _ _ _ Hv') as Hb'.
  pose proof (calcWeek_characterised t wb Hy2 Hv Hflag) as C.
  pose proof (calcWeek_characterised t' wb Hy2' Hv' Hflag) as C'.
  pose proof (calcWeek_bounds t wb Hy16 Hv) as R.
  pose proof (calcWeek_bounds t' wb Hy16' Hv') as R'.
  rewrite Hflag in R, R'. cbv zeta in C, C'.
  rewrite !calcDaynr_daynr in * by lia.
  rewrite Hd in *.
  destruct (calcWeek t wb) as [y w]. destruct (calcWeek t' wb) as [y' w'].
  destruct C as [C Cw], C' as [C' Cw'], R as [_ R], R' as [_ R'].
  assert (1 <= y < 2 ^ 16 - 1 /\ 1 <= y' < 2 ^ 16 - 1) as [Ry Ry'] by lia.
  assert (y < 2 ^ 16 /\ y' < 2 ^ 16) as [Uy Uy'] by lia.
  assert (y' = y \/ y' = y + 1) as Hyy.
  { assert (y' < y \/ y' = y \/ y' = y + 1 \/ y + 2 <= y') as Hc by lia.
    destruct Hc as [Hc | [Hc | [Hc | Hc]]]; auto; exfalso.
    - assert (1 <= y' + 1 <= y) as Hm by lia.
      pose proof (weekOneStart_mono wb (y' + 1) y Hm Uy). lia.
    - assert (1 <= y + 1 <= y') as Hm by lia.
      pose proof (weekOneStart_mono wb (y + 1) y' Hm Uy'). lia. }
  assert (1 <= y < 2 ^ 16) as Ry16 by lia.
  assert (1 <= y' < 2 ^ 16) as Ry16' by lia.
  destruct (weekOneStart_facts wb y Ry16) as (S0 & B & _).
  destruct (weekOneStart_facts wb y' Ry16') as (S0' & B' & _).
  pose proof (daynr_first_day y Ry16) as F.
  pose proof (daynr_first_day y' Ry16') as F'.
  rewrite !calcDaynr_daynr in B, B' by lia.
  assert (300 <= weekOneStart wb y <= 10 ^ 9
          /\ 300 <= weekOneStart wb y' <= 10 ^ 9) as [Hp Hp']
    by (destruct (test wb weekBehaviourFirstWeekday); lia).
  clear B B' F F'.
  assert (daynr (year t) (month t) (day t) <= 10 ^ 9) as Hn9.
  { pose proof (daynr_range (year t) (month t) (day t)). lia. }
  rewrite calcWeekday_rem in S0, S0' |- * by lia.
  remember (if negb (test wb weekBehaviourMondayFirst) then 6 else 5)
    as c eqn:Ec.
  assert (5 <= c <= 6) as Hc
    by (subst c; destruct (negb (test wb weekBehaviourMondayFirst)); lia).
  clear Ec.
  destruct Hyy as [-> | ->].
  - destruct (_ =? 0) eqn:E; bool_hyps; subst w w'; [left|]; quot_lia.
  - assert (daynr (year t) (month t) (day t) + 1 = weekOneStart wb (y + 1))
      as En by lia.
    rewrite En in *. rewrite S0'. cbn [Z.eqb]. right. subst w'.
    split; [reflexivity|]. rewrite Z.sub_diag. reflexivity.
Qed.

(** X17.  On a real date from year 1 on and for every mode, [Week]
    returns a week number in 0..53, at least 1 when bit 1 of the mode
    (the Year flag) is set, and [YearWeek] returns a week number in
    1..53 together with the year of the date, the year before or the
    year after. *)
Theorem Week_YearWeek_range (t : mysqlTime) (mode : Z) :
  1 <= year t < 2 ^ 16 ->
  validDate (year t) (month t) (day t) = true ->
  (if Z.testbit mode 1 then 1 else 0) <= Week t mode <= 53 /\
  1 <= snd (YearWeek t mode) <= 53 /\
  year t - 1 <= fst (YearWeek t mode) <= year t + 1.
Proof.
  intros Hy Hv.
  pose proof (validDate_bounds _ _ _ Hv) as Hb.
  destruct (weekMode_bits mode) as (By & _ & _ & By' & _). cbv zeta in By.
  pose proof (calcWeek_bounds t (weekMode mode) Hy Hv) as R.
  pose proof (calcWeek_bounds t (Z.lor (weekMode mode) weekBehaviourYear)
                Hy Hv) as R'.
  rewrite By in R'. rewrite By' in R.
  unfold Week, YearWeek.
  replace (month t =? 0) with false by (symmetry; apply Z.eqb_neq; lia).
  replace (day t =? 0) with false by (symmetry; apply Z.eqb_neq; lia).
  cbn [orb].
  destruct (calcWeek t (weekMode mode)) as [y w].
  destruct (calcWeek t (Z.lor (weekMode mode) weekBehaviourYear)) as [y' w'].
  cbn [fst snd]. destruct (Z.testbit mode 1); lia.
Qed.

Lemma Week_YearWeek_range_witness :
  1 <= year date20000101 < 2 ^ 16 /\
  validDate (year date20000101) (month date20000101) (day date20000101)
  = true /\
  (if Z.testbit 0 1 then 1 else 0) <= Week date20000101 0 <= 53.
Proof.
  assert (1 <= year date20000101 < 2 ^ 16) as Hy
    by (vm_compute; split; [discriminate | reflexivity]).
  assert (validDate (year date20000101) (month date20000101)
                    (day date20000101) = true) as Hv by reflexivity.
  split; [exact Hy|]. split; [exact Hv|].
  exact (proj1 (Week_YearWeek_range date20000101 0 Hy Hv)).
Defined.

(** X18.  [YearWeek] numbers weeks from the start of week 1 of the year
    it returns.  For a real date and every mode, with (y, w) the result:
    week 1 of y starts on the first day of the week (Monday when bit 0
    of the mode is set, else Sunday); it is the first such day on or
    after January 1 of y when the FirstWeekday flag of [weekMode] is on,
    and the one nearest to January 1 (at most 3 days away) otherwise;
    the date lies on or after that start and before the start of week 1
    of y + 1; and w counts the weeks from that start, beginning at 1. *)
Theorem YearWeek_week_of_year (t : mysqlTime) (mode : Z) :
  2 <= year t < 2 ^ 16 - 2 ->
  validDate (year t) (month t) (day t) = true ->
  let wb := Z.lor (weekMode mode) weekBehaviourYear in
  let n := calcDaynr (year t) (month t) (day t) in
  let '(y, w) := YearWeek t mode in
  let start := weekOneStart wb y in
  calcWeekday start (negb (Z.testbit mode 0)) = 0 /\
  (if xorb (Z.testbit mode 2) (negb (Z.testbit mode 0))
   then calcDaynr y 1 1 <= start <= calcDaynr y 1 1 + 6
   else calcDaynr y 1 1 - 3 <= start <= calcDaynr y 1 1 + 3) /\
  start <= n < weekOneStart wb (y + 1) /\
  w = (n - start) / 7 + 1.
Proof.
  intros Hy Hv. cbv zeta.
  assert (1 <= year t < 2 ^ 16) as Hy16 by lia.
  destruct (weekMode_bits mode) as (By & Bm & Bf & _). cbv zeta in By, Bm, Bf.
  pose proof (calcWeek_characterised t _ Hy Hv By) as C.
  pose proof (calcWeek_bounds t (Z.lor (weekMode mode) weekBehaviourYear)
                Hy16 Hv) as R.
  rewrite By in R. cbv zeta in C. unfold YearWeek.
  destruct (calcWeek t (Z.lor (weekMode mode) weekBehaviourYear)) as [y w].
  assert (1 <= y < 2 ^ 16) as Ry by lia.
  destruct (weekOneStart_facts (Z.lor (weekMode mode) weekBehaviourYear) y Ry)
    as (S0 & B & _).
  rewrite Bm in S0. rewrite Bf in B. tauto.
Qed.

Lemma YearWeek_week_of_year_witness :
  2 <= year date20000101 < 2 ^ 16 - 2 /\
  validDate (year date20000101) (month date20000101) (day date20000101)
  = true /\
  let '(y, w) := YearWeek date20000101 0 in
  w = (calcDaynr (year date20000101) (month date20000101)
                 (day date20000101)
       - weekOneStart (Z.lor (weekMode 0) weekBehaviourYear) y) / 7 + 1.
Proof.
  assert (2 <= year date20000101 < 2 ^ 16 - 2) as Hy
    by (vm_compute; split; [discriminate | reflexivity]).
  assert (validDate (year date20000101) (month date20000101)
                    (day date20000101) = true) as Hv by reflexivity.
  split; [exact Hy|]. split; [exact Hv|].
  pose proof (YearWeek_week_of_year date20000101 0 Hy Hv) as Hw.
  cbv zeta in Hw.
  destruct (YearWeek date20000101 0) as [y w].
  exact (proj2 (proj2 (proj2 Hw))).
Defined.

(** X19.  From a real date to the next, the result of [YearWeek]
    changes only when a week begins: if the next day is not the first
    day of the week (Monday when bit 0 of the mode is set, else Sunday),
    year and week stay the same; if it is, either the week number grows
    by one in the same year, or the year grows by one and the week
    number restarts at 1. *)
Theorem YearWeek_next_day (t t' : mysqlTime) (mode : Z) :
  2 <= year t < 2 ^ 16 - 3 ->
  validDate (year t) (month t) (day t) = true ->
  (year t', month t', day t') = nextDate (year t) (month t) (day t) ->
  let '(y, w) := YearWeek t mode in
  let '(y', w') := YearWeek t' mode in
  if calcWeekday (calcDaynr (year t') (month t') (day t'))
                 (negb (Z.testbit mode 0)) =? 0
  then (y' = y /\ w' = w + 1) \/ (y' = y + 1 /\ w' = 1)
  else y' = y /\ w' = w.
Proof.
  intros Hy Hv Hn.
  destruct (weekMode_bits mode) as (By & Bm & _). cbv zeta in By, Bm.
  pose proof (calcWeek_step t t' _ Hy Hv Hn By) as S.
  rewrite Bm in S. exact S.
Qed.

Lemma YearWeek_next_day_witness :
  2 <= year date20000101 < 2 ^ 16 - 3 /\
  validDate (year date20000101) (month date20000101) (day date20000101)
  = true /\
  (year date20000102, month date20000102, day date20000102)
  = nextDate (year date20000101) (month date20000101) (day date20000101) /\
  let '(y, w) := YearWeek date20000101 0 in
  let '(y', w') := YearWeek date20000102 0 in
  if calcWeekday (calcDaynr (year date20000102) (month date20000102)
                            (day date20000102))
                 (negb (Z.testbit 0 0)) =? 0
  then (y' = y /\ w' = w + 1) \/ (y' = y + 1 /\ w' = 1)
  else y' = y /\ w' = w.
Proof.
  assert (2 <= year date20000101 < 2 ^ 16 - 3) as Hy
    by (vm_compute; split; [discriminate | reflexivity]).
  assert (validDate (year date20000101) (month date20000101)
                    (day date20000101) = true) as Hv by reflexivity.
  assert ((year date20000102, month date20000102, day date20000102)
          = nextDate (year date20000101) (month date20000101)
                     (day date20000101)) as Hn by reflexivity.
  split; [exact Hy|]. split; [exact Hv|]. split; [exact Hn|].
  exact (YearWeek_next_day date20000101 date20000102 0 Hy Hv Hn).
Defined.

(** X20.  When bit 1 of the mode (the Year flag) is clear, [Week] on a
    real date counts weeks within the date's own year: it is 0 for the
    days before week 1 of that year starts, and otherwise the number of
    weeks from that start, beginning at 1. *)
Theorem Week_plain_count (t : mysqlTime) (mode : Z) :
  2 <= year t < 2 ^ 16 - 2 ->
  validDate (year t) (month t) (day t) = true ->
  Z.testbit mode 1 = false ->
  let n := calcDaynr (year t) (month t) (day t) in
  let start := weekOneStart (weekMode mode) (year t) in
  Week t mode = if n <? start then 0 else (n - start) / 7 + 1.
Proof.
  intros Hy Hv Hbit.
  pose proof (validDate_bounds _ _ _ Hv) as Hb.
  destruct (weekMode_bits mode) as (_ & _ & _ & By & _).
  rewrite Hbit in By.
  pose proof (calcWeek_plain_count t (weekMode mode) Hy Hv By) as P.
  cbv zeta in *. unfold Week.
  replace (month t =? 0) with false by (symmetry; apply Z.eqb_neq; lia).
  replace (day t =? 0) with false by (symmetry; apply Z.eqb_neq; lia).
  cbn [orb]. rewrite P. reflexivity.
Qed.

Lemma Week_plain_count_witness :
  2 <= year date20000101 < 2 ^ 16 - 2 /\
  validDate (year date20000101) (month date20000101) (day date20000101)
  = true /\
  Z.testbit 0 1 = false /\
  Week date20000101 0
  = if calcDaynr (year date20000101) (month date20000101)
                 (day date20000101)
       <? weekOneStart (weekMode 0) (year date20000101)
    then 0
    else (calcDaynr (year date20000101) (month date20000101)
                    (day date20000101)
          - weekOneStart (weekMode 0) (year date20000101)) / 7 + 1.
Proof.
  assert (2 <= year date20000101 < 2 ^ 16 - 2) as Hy
    by (vm_compute; split; [discriminate | reflexivity]).
  assert (validDate (year date20000101) (month date20000101)
                    (day date20000101) = true) as Hv by reflexivity.
  assert (Z.testbit 0 1 = false) as Hbit by reflexivity.
  split; [exact Hy|]. split; [exact Hv|]. split; [exact Hbit|].
  exact (Week_plain_count date20000101 0 Hy Hv Hbit).
Defined.

(** X21.  [YearWeek] ignores bit 1 of the mode, which it always sets:
    for every mode and every field value, real date or not, the result
    is the same with bit 1 set (mode | 2) and with bit 1 cleared
    (mode &^ 2).  When neither month nor day is zero, [Week] with bit 1
    set is the week component of [YearWeek]. *)
Theorem YearWeek_mode_year_flag (t : mysqlTime) (mode : Z) :
  YearWeek t (Z.lor mode 2) = YearWeek t mode /\
  YearWeek t (Z.ldiff mode 2) = YearWeek t mode /\
  (month t <> 0 -> day t <> 0 ->
   Week t (Z.lor mode 2) = snd (YearWeek t mode)).
Proof.
  destruct (weekMode_bits mode) as (_ & _ & _ & _ & _ & _ & _ & Bl).
  destruct (weekMode_bits (Z.lor mode 2)) as (_ & _ & _ & _ & _ & _ & Bs' & Bl').
  destruct (weekMode_bits (Z.ldiff mode 2)) as (_ & _ & _ & _ & _ & _ & _ & Bd).
  cbv zeta in *.
  assert (Z.testbit (Z.lor mode 2) 1 = true) as Hbit
    by (rewrite Z.lor_spec; apply orb_true_iff; right; reflexivity).
  assert (Z.lor (Z.ldiff mode 2) 2 = Z.lor mode 2) as Hd.
  { apply Z.bits_inj'. intros n Hn.
    rewrite !Z.lor_spec, Z.ldiff_spec.
    destruct (Z.testbit mode n), (Z.testbit 2 n); reflexivity. }
  assert (Z.lor (Z.lor mode 2) 2 = Z.lor mode 2) as Hl.
  { rewrite <- Z.lor_assoc. reflexivity. }
  unfold Week, YearWeek. repeat split.
  - rewrite Bl', Hl, <- Bl. reflexivity.
  - rewrite Bd, Hd, <- Bl. reflexivity.
  - intros Hm Hday.
    replace (month t =? 0) with false by (symmetry; apply Z.eqb_neq; lia).
    replace (day t =? 0) with false by (symmetry; apply Z.eqb_neq; lia).
    cbn [orb]. rewrite <- (Bs' Hbit), Bl', Hl, <- Bl. reflexivity.
Qed.

Lemma YearWeek_mode_year_flag_witness :
  month date20000101 <> 0 /\ day date20000101 <> 0 /\
  YearWeek date20000101 (Z.lor 0 2) = YearWeek date20000101 0 /\
  Week date20000101 (Z.lor 0 2) = snd (YearWeek date20000101 0).
Proof.
  assert (month date20000101 <> 0) as Hm by (vm_compute; discriminate).
  assert (day date20000101 <> 0) as Hd by (vm_compute; discriminate).
  split; [exact Hm|]. split; [exact Hd|].
  split.
  - exact (proj1 (YearWeek_mode_year_flag date20000101 0)).
  - exact (proj2 (proj2 (YearWeek_mode_year_flag date20000101 0)) Hm Hd).
Defined.

(** ** Conversion to the standard calendar *)

Lemma daynr_daysFromCivil (y m d : Z) :
  1 <= y -> 1 <= m <= 12 ->
  daynr y m d = StdCalendar.daysFromCivil y m d + 719528.
Proof.
  intros Hy Hm. rewrite daynr_unfold by lia.
  unfold StdCalendar.daysFromCivil, leapDays.
  each_month m; cbn [Z.leb Z.compare Pos.compare Pos.compare_cont].
  all: quot_lia.
Qed.

Lemma StdCalendar_no_zero (tm : StdCalendar.Time) :
  let '(_, m, d) := TimeDate tm in 1 <= m /\ 1 <= d.
Proof.
  cbn [TimeDate StdCalendar.calendar]. unfold StdCalendar.TimeDate.
  pose proof (daysFromCivil_civilFromDays (StdCalendar.wall tm / 86400)) as Hrt.
  destruct (StdCalendar.civilFromDays _) as [[y m] d].
  destruct Hrt as [_ Hv]. apply validDate_bounds in Hv. lia.
Qed.

(** X22.  The day number of [calcDaynr] and the day count of the
    standard calendar differ by a constant: for every real date from
    year 1 on, [calcDaynr] is the number of days since 1970-01-01 plus
    719528, so both count the same proleptic Gregorian days. *)
Theorem calcDaynr_unix_days (y m d : Z) :
  1 <= y < 10 ^ 16 -> validDate y m d = true ->
  calcDaynr y m d = StdCalendar.daysFromCivil y m d + 719528.
Proof.
  intros Hy Hv. pose proof (validDate_bounds _ _ _ Hv) as Hb.
  rewrite calcDaynr_daynr by lia.
  apply daynr_daysFromCivil; lia.
Qed.

Lemma calcDaynr_unix_days_witness :
  1 <= 1970 < 10 ^ 16 /\ validDate 1970 1 1 = true /\
  calcDaynr 1970 1 1 = StdCalendar.daysFromCivil 1970 1 1 + 719528.
Proof.
  split; [lia|]. split; [reflexivity|].
  apply calcDaynr_unix_days; [lia | reflexivity].
Defined.

Section ZeroFields.
Context {Time Location : Type} `{Calendar Time Location}.

(** X23.  No calendar that reports months and days from 1 accepts a
    zero month or a zero day: for such an implementation of the time
    package, [GoTime] on a value whose month or day is 0 returns
    [ErrInvalidTimeFormat], and [Weekday] returns 0. *)
Theorem GoTime_rejects_zero_month_or_day (t : mysqlTime) (loc : Location) :
  (forall tm, let '(_, m, d) := TimeDate tm in 1 <= m /\ 1 <= d) ->
  month t = 0 \/ day t = 0 ->
  snd (GoTime t loc) = Some ErrInvalidTimeFormat /\ Weekday t = 0.
Proof.
  intros Hcal Hz. split.
  - exact (GoTime_zero_month_or_day t loc Hcal Hz).
  - unfold Weekday.
    pose proof (GoTime_zero_month_or_day t Local Hcal Hz) as E.
    destruct (GoTime t Local) as [tm e]. cbn [snd] in E. subst e. reflexivity.
Qed.
End ZeroFields.

Lemma GoTime_rejects_zero_month_or_day_witness :
  (forall tm : StdCalendar.Time,
      let '(_, m, d) := TimeDate tm in 1 <= m /\ 1 <= d) /\
  (month time20010000 = 0 \/ day time20010000 = 0) /\
  snd (GoTime time20010000 StdCalendar.UTC) = Some ErrInvalidTimeFormat /\
  Weekday time20010000 = 0.
Proof.
  assert (month time20010000 = 0 \/ day time20010000 = 0) as Hz
    by (left; reflexivity).
  split; [exact StdCalendar_no_zero|]. split; [exact Hz|].
  exact (GoTime_rejects_zero_month_or_day time20010000 StdCalendar.UTC
           StdCalendar_no_zero Hz).
Defined.

Lemma StdCalendar_weekday_of_date (tm : StdCalendar.Time) :
  let '(y, m, d) := TimeDate tm in
  1 <= m <= 12 /\
  TimeWeekday tm = (StdCalendar.daysFromCivil y m d + 4) mod 7.
Proof.
  cbn [TimeDate TimeWeekday StdCalendar.calendar].
  unfold StdCalendar.TimeDate, StdCalendar.TimeWeekday.
  pose proof (daysFromCivil_civilFromDays (StdCalendar.wall tm / 86400)) as Hrt.
  destruct (StdCalendar.civilFromDays _) as [[y m] d].
  destruct Hrt as [-> Hv]. apply validDate_bounds in Hv.
  split; [lia | reflexivity].
Qed.

Section WeekdayAny.
Context {Time Location : Type} `{Calendar Time Location}.

(** X24.  [Weekday] agrees with the code's own weekday arithmetic, in
    whatever zone the host is set to.  For any implementation of the
    time package whose months run from 1 to 12 and whose weekday is the
    weekday of the date it reports (Sunday = 0, 1970-01-01 a Thursday),
    and for a value with fields within their widths and year from 1 on:
    when [GoTime] in the local zone succeeds, [Weekday] is [calcWeekday]
    of the day number, counted from Sunday = 0; when it fails, [Weekday]
    is 0. *)
Theorem Weekday_calcWeekday (t : mysqlTime) :
  (forall tm, let '(y, m, d) := TimeDate tm in
              1 <= m <= 12 /\
              TimeWeekday tm = (StdCalendar.daysFromCivil y m d + 4) mod 7) ->
  wfTime t = true -> 1 <= year t ->
  Weekday t =
  match snd (GoTime t Local) with
  | None => calcWeekday (calcDaynr (year t) (month t) (day t)) true
  | Some _ => 0
  end.
Proof.
  intros Hcal Hw Hy.
  destruct (GoTime_spec t Local) as (Hf & _ & Hs). cbv zeta in Hs.
  unfold Weekday.
  destruct (GoTime t Local) as [tm e]. cbn [fst snd] in *.
  destruct e as [e|]; [reflexivity|].
  destruct Hs as [Hs _]. specialize (Hs eq_refl).
  rewrite <- Hf in Hs. clear Hf.
  specialize (Hcal tm). unfold reextract in Hs.
  destruct (TimeDate tm) as [[y m] d]. destruct (TimeClock tm) as [[h mi] s].
  injection Hs as -> -> -> _ _ _ _.
  destruct Hcal as [Hm ->].
  pose proof (wfTime_bounds t Hw) as B.
  cbn [Year Month Day Hour Minute Second Microsecond
       mysqlTime_TimeInternal] in *.
  rewrite calcDaynr_daynr by lia.
  pose proof (daynr_daysFromCivil (year t) (month t) (day t) Hy Hm) as Hd.
  assert (0 <= daynr (year t) (month t) (day t) <= 10 ^ 18) as R.
  { rewrite daynr_unfold by lia. unfold leapDays.
    destruct (month t <=? 2); quot_lia. }
  rewrite calcWeekday_rem by lia.
  remember (StdCalendar.daysFromCivil (year t) (month t) (day t)) as z.
  remember (daynr (year t) (month t) (day t)) as n.
  clear Heqz Heqn. quot_lia.
Qed.
End WeekdayAny.

Lemma Weekday_calcWeekday_witness :
  (forall tm : StdCalendar.Time,
      let '(y, m, d) := TimeDate tm in
      1 <= m <= 12 /\
      TimeWeekday tm = (StdCalendar.daysFromCivil y m d + 4) mod 7) /\
  wfTime date20000101 = true /\ 1 <= year date20000101 /\
  Weekday date20000101 =
  match snd (GoTime date20000101 Local) with
  | None => calcWeekday (calcDaynr (year date20000101) (month date20000101)
                                   (day date20000101)) true
  | Some _ => 0
  end.
Proof.
  assert (wfTime date20000101 = true) as Hw by reflexivity.
  assert (1 <= year date20000101) as Hy by (vm_compute; discriminate).
  split; [exact StdCalendar_weekday_of_date|].
  split; [exact Hw|]. split; [exact Hy|].
  exact (Weekday_calcWeekday date20000101 StdCalendar_weekday_of_date Hw Hy).
Defined.
